(** * revolut-test: the birthday API helper and the DynamoDB migrator

    A shallow embedding of [main.py] (the days-until-birthday helper) and of
    [migrations.py] (the table migrator), with the properties the
    specification states about them.

    Python exceptions are values of [exn]; a call that may raise returns
    [exn + A], with [inl e] for "raised e" and [inr a] for "returned a". *)

From Stdlib Require Import ZArith List String Ascii Bool Lia.
From Stdlib Require DecimalString.
Import ListNotations.
#[local] Set Warnings "-register-all".
Open Scope string_scope.
Open Scope list_scope.
Open Scope Z_scope.

(** ** Exceptions *)

(** The exception classes the two modules can meet.  All of them derive from
    Python's [Exception]; [WaiterError] and [BotoCoreError] are botocore's
    and are not [ClientError]s. *)
Inductive exn : Type :=
| ValueError (msg : string)
| KeyError (key : string)
| TypeError
| AttributeError
| FileNotFoundError
| JSONDecodeError
| OSError (msg : string)
| ClientError (code : string)
| WaiterError (reason : string)
| BotoCoreError (kind : string).

(** ** main.py: the calendar arithmetic of [datetime.date] *)

Module Datetime.

Record date : Type := mkdate { year : Z; month : Z; day : Z }.

Definition MINYEAR : Z := 1.
Definition MAXYEAR : Z := 9999.

Definition is_leap (y : Z) : bool :=
  (y mod 4 =? 0) && (negb (y mod 100 =? 0) || (y mod 400 =? 0)).

Definition days_in_month (y m : Z) : Z :=
  match m with
  | 1 => 31 | 2 => if is_leap y then 29 else 28 | 3 => 31 | 4 => 30
  | 5 => 31 | 6 => 30 | 7 => 31 | 8 => 31
  | 9 => 30 | 10 => 31 | 11 => 30 | 12 => 31
  | _ => 0
  end.

(** Number of days before January 1st of year [y]. *)
Definition days_before_year (y : Z) : Z :=
  let y' := y - 1 in y' * 365 + y' / 4 - y' / 100 + y' / 400.

(** Number of days in year [y] before the first day of month [m]. *)
Definition days_before_month (y m : Z) : Z :=
  match m with
  | 1 => 0 | 2 => 31 | 3 => 59 | 4 => 90 | 5 => 120 | 6 => 151
  | 7 => 181 | 8 => 212 | 9 => 243 | 10 => 273 | 11 => 304 | 12 => 334
  | _ => 0
  end + (if (2 <? m) && is_leap y then 1 else 0).

Definition ymd2ord (y m d : Z) : Z :=
  days_before_year y + days_before_month y m + d.

Definition toordinal (a : date) : Z := ymd2ord (year a) (month a) (day a).

(** The field check of the [date] constructor. *)
Definition check_date_fields (y m d : Z) : bool :=
  (MINYEAR <=? y) && (y <=? MAXYEAR) &&
  (1 <=? m) && (m <=? 12) &&
  (1 <=? d) && (d <=? days_in_month y m).

Definition valid_date (a : date) : Prop :=
  check_date_fields (year a) (month a) (day a) = true.

(** [date(y, m, d)]: raises [ValueError] on a field out of range. *)
Definition make_date (y m d : Z) : exn + date :=
  if negb ((MINYEAR <=? y) && (y <=? MAXYEAR))
  then inl (ValueError "year is out of range")
  else if negb ((1 <=? m) && (m <=? 12))
  then inl (ValueError "month must be in 1..12")
  else if negb ((1 <=? d) && (d <=? days_in_month y m))
  then inl (ValueError "day is out of range for month")
  else inr (mkdate y m d).

(** [a.replace(year=y)]: a new date through the constructor. *)
Definition replace_year (a : date) (y : Z) : exn + date :=
  make_date y (month a) (day a).

(** [a < b]: dates compare as the tuples (year, month, day). *)
Definition date_ltb (a b : date) : bool :=
  (year a <? year b) ||
  ((year a =? year b) &&
   ((month a <? month b) || ((month a =? month b) && (day a <? day b)))).

(** [(a - b).days]. *)
Definition sub_days (a b : date) : Z := toordinal a - toordinal b.

(** *** [datetime.strptime(s, "%Y-%m-%d").date()]

    The format compiles to the regular expression
    [(\d\d\d\d)-(1[0-2]|0[1-9]|[1-9])-(3[01]|[12]\d|0[1-9]|[1-9]| [1-9])],
    matched at the start of the string; the whole string must be consumed.
    Characters are bytes here: digits outside ASCII are not represented. *)

Definition digit_val (c : ascii) : option Z :=
  let n := Z.of_nat (nat_of_ascii c) in
  if (48 <=? n) && (n <=? 57) then Some (n - 48) else None.

Definition is_dash (c : ascii) : bool := Ascii.eqb c "-"%char.
Definition is_space (c : ascii) : bool := Ascii.eqb c " "%char.

(** The year group and the dash after it. *)
Definition parse_Y (s : list ascii) : option (Z * list ascii) :=
  match s with
  | c1 :: c2 :: c3 :: c4 :: dash :: rest =>
      match digit_val c1, digit_val c2, digit_val c3, digit_val c4 with
      | Some a, Some b, Some c, Some d =>
          if is_dash dash then Some (1000 * a + 100 * b + 10 * c + d, rest)
          else None
      | _, _, _, _ => None
      end
  | _ => None
  end.

(** The month group: the alternatives in order, each one kept only when a
    dash follows it (the matcher backtracks into the next alternative). *)
Definition parse_m (s : list ascii) : option (Z * list ascii) :=
  let two :=
    match s with
    | c1 :: c2 :: dash :: rest =>
        match digit_val c1, digit_val c2 with
        | Some a, Some b =>
            if is_dash dash &&
               (((a =? 1) && (b <=? 2)) || ((a =? 0) && (1 <=? b)))
            then Some (10 * a + b, rest) else None
        | _, _ => None
        end
    | _ => None
    end in
  match two with
  | Some r => Some r
  | None =>
      match s with
      | c1 :: dash :: rest =>
          match digit_val c1 with
          | Some a => if is_dash dash && (1 <=? a) then Some (a, rest) else None
          | None => None
          end
      | _ => None
      end
  end.

(** The day group: the first alternative that matches where the month's dash
    ended; nothing follows it in the pattern, so there is no backtracking. *)
Definition parse_d (s : list ascii) : option (Z * list ascii) :=
  let two :=
    match s with
    | c1 :: c2 :: rest =>
        match digit_val c1, digit_val c2 with
        | Some a, Some b =>
            if ((a =? 3) && (b <=? 1)) || ((1 <=? a) && (a <=? 2)) ||
               ((a =? 0) && (1 <=? b))
            then Some (10 * a + b, rest) else None
        | _, _ => None
        end
    | _ => None
    end in
  match two with
  | Some r => Some r
  | None =>
      match s with
      | c1 :: rest =>
          match digit_val c1 with
          | Some a => if 1 <=? a then Some (a, rest) else None
          | None =>
              if is_space c1 then
                match rest with
                | c2 :: rest' =>
                    match digit_val c2 with
                    | Some b => if 1 <=? b then Some (b, rest') else None
                    | None => None
                    end
                | [] => None
                end
              else None
          end
      | [] => None
      end
  end.

Definition strptime_ymd (s : string) : exn + date :=
  match parse_Y (list_ascii_of_string s) with
  | None => inl (ValueError "time data does not match format")
  | Some (y, s1) =>
      match parse_m s1 with
      | None => inl (ValueError "time data does not match format")
      | Some (m, s2) =>
          match parse_d s2 with
          | None => inl (ValueError "time data does not match format")
          | Some (d, []) => make_date y m d
          | Some (_, _ :: _) => inl (ValueError "unconverted data remains")
          end
      end
  end.

(** *** [a.isoformat()]: the string ["%04d-%02d-%02d"] of the fields,
    which [put_hello] stores and [get_hello] passes back to the helper. *)

Definition digit (n : Z) : ascii := ascii_of_nat (48 + Z.to_nat n).

Definition isoformat (a : date) : string :=
  string_of_list_ascii
    [digit (year a / 1000 mod 10); digit (year a / 100 mod 10);
     digit (year a / 10 mod 10); digit (year a mod 10);
     "-"%char;
     digit (month a / 10 mod 10); digit (month a mod 10);
     "-"%char;
     digit (day a / 10 mod 10); digit (day a mod 10)].

End Datetime.

(** ** main.py: [calculate_days_until_birthday] *)

Module Main.
Import Datetime.

(** [today] stands for the value of [date.today()] at the call. *)
Definition calculate_days_until_birthday
    (birth_date_str : string) (today : date) : exn + Z :=
  match strptime_ymd birth_date_str with
  | inl e => inl e
  | inr birth_date =>
      (* Create this year's birthday *)
      match replace_year birth_date (year today) with
      | inl e => inl e
      | inr this_year_birthday =>
          (* If this year's birthday has passed, calculate for next year *)
          let next_birthday :=
            if date_ltb this_year_birthday today
            then replace_year birth_date (year today + 1)
            else inr this_year_birthday in
          match next_birthday with
          | inl e => inl e
          | inr next_birthday => inr (sub_days next_birthday today)
          end
      end
  end.

End Main.

(** ** migrations.py: the values read from the configuration file *)

Module Json.

(** What [json.load] returns.  An object is a [dict]: the pairs are in
    insertion order and a key is looked up at its first pair.  Numbers are
    integers: no part of the migrator computes with them. *)
Inductive json : Type :=
| JNull
| JBool (b : bool)
| JNum (n : Z)
| JStr (s : string)
| JArr (items : list json)
| JObj (pairs : list (string * json)).

Fixpoint assoc (k : string) (pairs : list (string * json)) : option json :=
  match pairs with
  | [] => None
  | (k', v) :: rest => if String.eqb k k' then Some v else assoc k rest
  end.

(** [v[k]] with a string key. *)
Definition getitem (v : json) (k : string) : exn + json :=
  match v with
  | JObj pairs =>
      match assoc k pairs with
      | Some x => inr x
      | None => inl (KeyError k)
      end
  | _ => inl TypeError
  end.

(** [v.get(k, default)]: only a [dict] has the method. *)
Definition get_default (v : json) (k : string) (default : json) : exn + json :=
  match v with
  | JObj pairs =>
      match assoc k pairs with
      | Some x => inr x
      | None => inr default
      end
  | _ => inl AttributeError
  end.

(** [v[k] if k in v], for a [v] that is a [dict]: the value under an
    optional key. *)
Definition contains (v : json) (k : string) : option json :=
  match v with
  | JObj pairs => assoc k pairs
  | _ => None
  end.

Fixpoint chars (s : string) : list json :=
  match s with
  | EmptyString => []
  | String c rest => JStr (String c EmptyString) :: chars rest
  end.

(** The items a [for] loop over [v] visits. *)
Definition iter (v : json) : exn + list json :=
  match v with
  | JArr items => inr items
  | JObj pairs => inr (map (fun kv => JStr (fst kv)) pairs)
  | JStr s => inr (chars s)
  | _ => inl TypeError
  end.

(** [len(v)]. *)
Definition len (v : json) : exn + nat :=
  match v with
  | JArr items => inr (List.length items)
  | JObj pairs => inr (List.length pairs)
  | JStr s => inr (String.length s)
  | _ => inl TypeError
  end.

(** [not v]. *)
Definition falsy (v : json) : bool :=
  match v with
  | JNull => true
  | JBool b => negb b
  | JNum n => n =? 0
  | JStr s => String.eqb s ""
  | JArr items => match items with [] => true | _ => false end
  | JObj pairs => match pairs with [] => true | _ => false end
  end.

End Json.

(** ** migrations.py: the store behind boto3 *)

Module Store.
Import Json.

(** The keyword arguments of [client.create_table]. *)
Record create_params : Type := mk_create_params {
  TableName : json;
  KeySchema : list json;
  AttributeDefinitions : list json;
  BillingMode : json;
  GlobalSecondaryIndexes : option json;
  LocalSecondaryIndexes : option json
}.

(** The response of [client.list_tables]. *)
Record list_tables_response : Type := mk_list_tables_response {
  TableNames : option (list string);
  LastEvaluatedTableName : option string
}.

(** The calls the migrator makes on boto3.  [S] is the state of the world
    behind the client (the tables of the DynamoDB instance, the network);
    every call may change it and may raise.  [Table_load n] is
    [dynamodb.Table(n).load()] and [waiter_wait n] is
    [client.get_waiter('table_exists').wait(TableName=n)], which gives up
    with a [WaiterError] after its maximal number of attempts.
    [read_json f] is [json.load] on the opened file [f], and [connect] the
    construction of the clients in [DynamoDBMigrator.__init__]. *)
Record client (S : Type) : Type := mk_client {
  read_json : string -> exn + json;
  connect : S -> (exn + unit) * S;
  Table_load : json -> S -> (exn + unit) * S;
  client_create_table : create_params -> S -> (exn + unit) * S;
  waiter_wait : json -> S -> (exn + unit) * S;
  client_list_tables : S -> (exn + list_tables_response) * S
}.

Arguments read_json {S} _ _.
Arguments connect {S} _ _.
Arguments Table_load {S} _ _ _.
Arguments client_create_table {S} _ _ _.
Arguments waiter_wait {S} _ _ _.
Arguments client_list_tables {S} _ _.

(** What a run leaves behind, in order: the calls on the store and the
    records sent to the logger. *)
Inductive store_call : Type :=
| CallLoad (name : json)
| CallCreate (params : create_params)
| CallWait (name : json)
| CallList.

Inductive level : Type := INFO | WARNING | ERROR.

(** One constructor per logging statement of [migrations.py], with the
    values its f-string interpolates. *)
Inductive message : Type :=
| Loaded_table_configurations (n : nat) (config_file : string)
| Configuration_file_not_found (config_file : string)
| Invalid_JSON (e : exn)
| Error_checking_exists (name : json) (e : exn)
| Already_exists_skipping (name : json)
| Creating_table (name : json)
| Successfully_created (name : json)
| Being_created_by_another_process (name : json)
| Failed_to_create (name : json) (e : exn)
| Unexpected_error_creating (name : json) (e : exn)
| Failed_to_list (e : exn)
| No_table_configurations
| Migration_completed (success_count total : nat)
| Migration_failed (e : exn)
| Existing_tables
| Table_item (name : string)
| No_tables_found
| Migration_script_failed (e : exn).

Inductive event : Type :=
| Call (c : store_call)
| Log (l : level) (m : message).

End Store.

(** ** migrations.py: [DynamoDBMigrator] *)

Module Migrations.
Import Json Store.

Section Migrator.

Context {S : Type}.
Variable boto3 : client S.

(** A computation of the migrator: from the state of the store to a result
    (returned or raised), the new state and the events produced.  A raised
    exception keeps the state and the events reached. *)
Definition M (A : Type) : Type := S -> (exn + A) * S * list event.

Definition ret {A} (a : A) : M A := fun s => (inr a, s, []).

Definition raise {A} (e : exn) : M A := fun s => (inl e, s, []).

Definition bind {A B} (m : M A) (f : A -> M B) : M B :=
  fun s =>
    match m s with
    | (inl e, s1, t1) => (inl e, s1, t1)
    | (inr a, s1, t1) =>
        match f a s1 with
        | (r, s2, t2) => (r, s2, t1 ++ t2)
        end
    end.

(** [try: m except Exception as e: h e]. *)
Definition try_except {A} (m : M A) (h : exn -> M A) : M A :=
  fun s =>
    match m s with
    | (inl e, s1, t1) =>
        match h e s1 with
        | (r, s2, t2) => (r, s2, t1 ++ t2)
        end
    | (inr a, s1, t1) => (inr a, s1, t1)
    end.

Definition lift {A} (r : exn + A) : M A := fun s => (r, s, []).

Definition logger (l : level) (m : message) : M unit :=
  fun s => (inr tt, s, [Log l m]).

(** A call on the store, recorded. *)
Definition call {A} (c : store_call) (op : S -> (exn + A) * S) : M A :=
  fun s => match op s with (r, s1) => (r, s1, [Call c]) end.

(** [DynamoDBMigrator(...)]: the constructor only builds the clients. *)
Definition new_migrator : M unit :=
  fun s => match connect boto3 s with (r, s1) => (r, s1, []) end.

Notation "x <- m ;; k" := (bind m (fun x => k))
  (at level 61, m at next level, right associativity).
Notation "m ;;; k" := (bind m (fun _ => k))
  (at level 61, right associativity).

Definition load_table_config (config_file : string) : M json :=
  match read_json boto3 config_file with
  | inr config =>
      tables <- lift (get_default config "tables" (JArr [])) ;;
      n <- lift (len tables) ;;
      logger INFO (Loaded_table_configurations n config_file) ;;;
      ret tables
  | inl FileNotFoundError =>
      logger ERROR (Configuration_file_not_found config_file) ;;;
      raise FileNotFoundError
  | inl JSONDecodeError =>
      logger ERROR (Invalid_JSON JSONDecodeError) ;;;
      raise JSONDecodeError
  | inl e => raise e
  end.

Definition table_exists (table_name : json) : M bool :=
  try_except
    (call (CallLoad table_name) (Table_load boto3 table_name) ;;;
     ret true)
    (fun e =>
       match e with
       | ClientError code =>
           if String.eqb code "ResourceNotFoundException" then ret false
           else
             logger ERROR (Error_checking_exists table_name e) ;;;
             ret false
       | _ => raise e
       end).

(** The conversion loops of [create_table] (key schema and attribute
    definitions). *)
Fixpoint convert (from1 to1 from2 to2 : string) (items : list json)
  : exn + list json :=
  match items with
  | [] => inr []
  | item :: rest =>
      match getitem item from1 with
      | inl e => inl e
      | inr a =>
          match getitem item from2 with
          | inl e => inl e
          | inr b =>
              match convert from1 to1 from2 to2 rest with
              | inl e => inl e
              | inr tl => inr (JObj [(to1, a); (to2, b)] :: tl)
              end
          end
      end
  end.

Definition bind_exn {A B} (r : exn + A) (f : A -> exn + B) : exn + B :=
  match r with
  | inl e => inl e
  | inr a => f a
  end.

(** The parameters [create_table] prepares before it calls the store. *)
Definition prepare_create_params (table_config table_name : json)
  : exn + create_params :=
  bind_exn (getitem table_config "key_schema") (fun ks =>
  bind_exn (iter ks) (fun keys =>
  bind_exn (convert "attribute_name" "AttributeName" "key_type" "KeyType" keys)
    (fun key_schema =>
  bind_exn (getitem table_config "attributes") (fun ats =>
  bind_exn (iter ats) (fun attrs =>
  bind_exn (convert "name" "AttributeName" "type" "AttributeType" attrs)
    (fun attribute_definitions =>
  bind_exn (getitem table_config "billing_mode") (fun billing_mode =>
  inr {| TableName := table_name;
         KeySchema := key_schema;
         AttributeDefinitions := attribute_definitions;
         BillingMode := billing_mode;
         GlobalSecondaryIndexes :=
           contains table_config "global_secondary_indexes";
         LocalSecondaryIndexes :=
           contains table_config "local_secondary_indexes" |}))))))).

Definition create_table (table_config : json) : M bool :=
  table_name <- lift (getitem table_config "name") ;;
  (* Check if table already exists *)
  exists_ <- table_exists table_name ;;
  if exists_ then
    logger INFO (Already_exists_skipping table_name) ;;;
    ret true
  else
    try_except
      (create_params <- lift (prepare_create_params table_config table_name) ;;
       (* Create the table *)
       logger INFO (Creating_table table_name) ;;;
       call (CallCreate create_params)
            (client_create_table boto3 create_params) ;;;
       (* Wait for table to be created *)
       call (CallWait table_name) (waiter_wait boto3 table_name) ;;;
       logger INFO (Successfully_created table_name) ;;;
       ret true)
      (fun e =>
         match e with
         | ClientError error_code =>
             if String.eqb error_code "ResourceInUseException" then
               logger WARNING (Being_created_by_another_process table_name) ;;;
               ret true
             else
               logger ERROR (Failed_to_create table_name e) ;;;
               ret false
         | _ =>
             logger ERROR (Unexpected_error_creating table_name e) ;;;
             ret false
         end).

Definition list_tables : M (list string) :=
  try_except
    (response <- call CallList (client_list_tables boto3) ;;
     ret (match TableNames response with
          | Some names => names
          | None => []
          end))
    (fun e =>
       logger ERROR (Failed_to_list e) ;;;
       ret []).

(** The [for] loop of [run_migrations]. *)
Fixpoint create_each (table_configs : list json) (success_count : nat)
  : M nat :=
  match table_configs with
  | [] => ret success_count
  | table_config :: rest =>
      created <- create_table table_config ;;
      create_each rest
        (if created then (success_count + 1)%nat else success_count)
  end.

Definition run_migrations (config_file : string) : M bool :=
  try_except
    ((* Load table configurations *)
     table_configs <- load_table_config config_file ;;
     if falsy table_configs then
       logger WARNING No_table_configurations ;;;
       ret true
     else
       (* Create each table *)
       items <- lift (iter table_configs) ;;
       success_count <- create_each items 0%nat ;;
       total <- lift (len table_configs) ;;
       logger INFO (Migration_completed success_count total) ;;;
       ret (Nat.eqb success_count total))
    (fun e =>
       logger ERROR (Migration_failed e) ;;;
       ret false).

(** [main], after the arguments are parsed: [list_flag] is [--list] and
    [config] is [--config]; the other arguments and the environment only
    choose how the clients are built, which is [connect].  The result is the
    exit status of the process: [sys.exit] is not an [Exception], so the
    handler does not see it, and a plain [return] ends the process with 0. *)
Definition main (list_flag : bool) (config : string) : M Z :=
  try_except
    ((* Initialize migrator *)
     new_migrator ;;;
     if list_flag then
       (* List tables if requested *)
       tables <- list_tables ;;
       match tables with
       | [] => logger INFO No_tables_found
       | _ :: _ =>
           logger INFO Existing_tables ;;;
           fold_right (fun table k => logger INFO (Table_item table) ;;; k)
                      (ret tt) tables
       end ;;;
       ret 0
     else
       (* Run migrations *)
       success <- run_migrations config ;;
       ret (if success then 0 else 1))
    (fun e =>
       logger ERROR (Migration_script_failed e) ;;;
       ret 1).

(** *** Vocabulary of the properties *)

(** The outcome of every descriptor, in the order of the loop: what
    [create_table] returns ([inr true] for success, [inr false] for failure)
    or raises, up to the first one that raises, which ends the loop. *)
Fixpoint outcomes (table_configs : list json) (s : S) : list (exn + bool) :=
  match table_configs with
  | [] => []
  | table_config :: rest =>
      match create_table table_config s with
      | (inl e, _, _) => [inl e]
      | (inr created, s1, _) => inr created :: outcomes rest s1
      end
  end.

(** Every descriptor of the list, taken in order from the state [s], makes
    [create_table] return [True]: the state and the events at the end. *)
Fixpoint all_succeed (table_configs : list json) (s : S)
  : option (S * list event) :=
  match table_configs with
  | [] => Some (s, [])
  | table_config :: rest =>
      match create_table table_config s with
      | (inr true, s1, t1) =>
          match all_succeed rest s1 with
          | Some (s2, t2) => Some (s2, t1 ++ t2)
          | None => None
          end
      | _ => None
      end
  end.

(** The events of a creation that reaches the store's [create_table], before
    the answer of the store is known. *)
Definition creation_events (name : json) (params : create_params)
  : list event :=
  [Log INFO (Creating_table name); Call (CallCreate params)].

(** What [create_table] logs when its [try] block raises [e], other than
    the [ResourceInUseException] it takes for a success. *)
Definition refusal (name : json) (e : exn) : message :=
  match e with
  | ClientError _ => Failed_to_create name e
  | _ => Unexpected_error_creating name e
  end.

(** The outcome of a descriptor that succeeded. *)
Definition succeeded (table_config : json) : exn + bool := inr true.

(** The calls on the store among the events of a run. *)
Fixpoint calls_of (t : list event) : list store_call :=
  match t with
  | [] => []
  | Call c :: rest => c :: calls_of rest
  | Log _ _ :: rest => calls_of rest
  end.

Definition is_load (c : store_call) : bool :=
  match c with
  | CallLoad _ => true
  | _ => false
  end.

(** The table [n] is there in the state [s]: loading it succeeds. *)
Definition present (s : S) (n : json) : Prop :=
  fst (Table_load boto3 n s) = inr tt.

(** The descriptor [d] has a name, and its table is there in [s]. *)
Definition named_present (s : S) (d : json) : Prop :=
  exists name, getitem d "name" = inr name /\ present s name.

(** Among the events [t], the table of the descriptor [d] was logged as
    already existing. *)
Definition skipped_in (t : list event) (d : json) : Prop :=
  exists name,
    getitem d "name" = inr name /\
    In (Log INFO (Already_exists_skipping name)) t.

(** A store that forgets no table while the migrator runs (nobody deletes
    one), and that shows a table once its creation was accepted or was
    answered by [ResourceInUseException]. *)
Record durable : Prop := mk_durable {
  load_keeps : forall n m s,
    present s n -> present (snd (Table_load boto3 m s)) n;
  create_keeps : forall n p s,
    present s n -> present (snd (client_create_table boto3 p s)) n;
  wait_keeps : forall n m s,
    present s n -> present (snd (waiter_wait boto3 m s)) n;
  create_shows : forall p s,
    fst (client_create_table boto3 p s) = inr tt \/
    fst (client_create_table boto3 p s)
      = inl (ClientError "ResourceInUseException") ->
    present (snd (client_create_table boto3 p s)) (TableName p)
}.

(** The [try] statement of [create_table], which it reaches when the
    table is not there. *)
Definition creation_block (table_config table_name : json) : M bool :=
  try_except
    (create_params <- lift (prepare_create_params table_config table_name) ;;
     logger INFO (Creating_table table_name) ;;;
     call (CallCreate create_params)
          (client_create_table boto3 create_params) ;;;
     call (CallWait table_name) (waiter_wait boto3 table_name) ;;;
     logger INFO (Successfully_created table_name) ;;;
     ret true)
    (fun e =>
       match e with
       | ClientError error_code =>
           if String.eqb error_code "ResourceInUseException" then
             logger WARNING (Being_created_by_another_process table_name) ;;;
             ret true
           else
             logger ERROR (Failed_to_create table_name e) ;;;
             ret false
       | _ =>
           logger ERROR (Unexpected_error_creating table_name e) ;;;
           ret false
       end).

(** Calls on the store that come table by table: a load, or a load and the
    creation of the table loaded, or these two and the wait for it. *)
Inductive table_by_table : list store_call -> Prop :=
| tbt_done : table_by_table []
| tbt_checked (n : json) (rest : list store_call) :
    table_by_table rest ->
    table_by_table (CallLoad n :: rest)
| tbt_created (n : json) (p : create_params) (rest : list store_call) :
    TableName p = n ->
    table_by_table rest ->
    table_by_table (CallLoad n :: CallCreate p :: rest)
| tbt_awaited (n : json) (p : create_params) (rest : list store_call) :
    TableName p = n ->
    table_by_table rest ->
    table_by_table (CallLoad n :: CallCreate p :: CallWait n :: rest).

(** The exception is the [ResourceInUseException] that [create_table] takes
    for a success. *)
Definition in_use (e : exn) : bool :=
  match e with
  | ClientError code => String.eqb code "ResourceInUseException"
  | _ => false
  end.

(** What the handlers of [create_table] log for the exception [e]. *)
Definition handled (name : json) (e : exn) : event :=
  if in_use e then Log WARNING (Being_created_by_another_process name)
  else Log ERROR (refusal name e).

(** The number of successes among outcomes. *)
Fixpoint successes (os : list (exn + bool)) : nat :=
  match os with
  | [] => 0
  | inr true :: rest => Datatypes.S (successes rest)
  | _ :: rest => successes rest
  end.

(** The lines [main --list] logs for the tables listed. *)
Definition listing (names : list string) : list event :=
  match names with
  | [] => [Log INFO No_tables_found]
  | _ :: _ =>
      Log INFO Existing_tables
      :: map (fun name => Log INFO (Table_item name)) names
  end.

End Migrator.

End Migrations.

(** ** An in-memory store

    A store to run the migrator on: the state is the list of the tables that
    exist, and [faults] tells which calls fail and how.  It behaves as
    DynamoDB does on the calls of the migrator: a table that is not there is
    reported by [ResourceNotFoundException], the creation of a table that is
    there by [ResourceInUseException]. *)

Module InMemory.
Import Json Store.

Record faults : Type := mk_faults {
  on_load : string -> option exn;
  on_create : string -> option exn;
  on_wait : string -> option exn;
  on_list : option exn;
  (** another process creates the table between the check and the creation *)
  raced : string -> bool
}.

Definition no_faults : faults :=
  {| on_load := fun _ => None;
     on_create := fun _ => None;
     on_wait := fun _ => None;
     on_list := None;
     raced := fun _ => false |}.

Definition has_table (n : string) (tables : list string) : bool :=
  existsb (String.eqb n) tables.

Definition load (f : faults) (name : json) (tables : list string)
  : (exn + unit) * list string :=
  match name with
  | JStr n =>
      match on_load f n with
      | Some e => (inl e, tables)
      | None =>
          if has_table n tables then (inr tt, tables)
          else (inl (ClientError "ResourceNotFoundException"), tables)
      end
  | _ => (inl (BotoCoreError "ParamValidationError"), tables)
  end.

Definition create (f : faults) (p : create_params) (tables : list string)
  : (exn + unit) * list string :=
  match TableName p with
  | JStr n =>
      match on_create f n with
      | Some e => (inl e, tables)
      | None =>
          if has_table n tables
          then (inl (ClientError "ResourceInUseException"), tables)
          else if raced f n
          then (inl (ClientError "ResourceInUseException"), tables ++ [n])
          else (inr tt, tables ++ [n])
      end
  | _ => (inl (BotoCoreError "ParamValidationError"), tables)
  end.

Definition wait (f : faults) (name : json) (tables : list string)
  : (exn + unit) * list string :=
  match name with
  | JStr n =>
      match on_wait f n with
      | Some e => (inl e, tables)
      | None =>
          if has_table n tables then (inr tt, tables)
          else (inl (WaiterError "Max attempts exceeded"), tables)
      end
  | _ => (inl (BotoCoreError "ParamValidationError"), tables)
  end.

Definition list_all (f : faults) (tables : list string)
  : (exn + list_tables_response) * list string :=
  match on_list f with
  | Some e => (inl e, tables)
  | None =>
      (inr {| TableNames := Some tables; LastEvaluatedTableName := None |},
       tables)
  end.

Definition in_memory (files : string -> exn + json) (f : faults)
  : client (list string) :=
  {| read_json := files;
     connect := fun tables => (inr tt, tables);
     Table_load := load f;
     client_create_table := create f;
     waiter_wait := wait f;
     client_list_tables := list_all f |}.

(** *** Sample configurations *)

Definition table (name : string) : json :=
  JObj [("name", JStr name);
        ("key_schema",
         JArr [JObj [("attribute_name", JStr "username");
                     ("key_type", JStr "HASH")]]);
        ("attributes",
         JArr [JObj [("name", JStr "username"); ("type", JStr "S")]]);
        ("billing_mode", JStr "PAY_PER_REQUEST")].


Definition config_of (tables : list json) : json :=
  JObj [("tables", JArr tables)].

(** A file system with one file, [tables_config.json]. *)
Definition one_file (content : json) (path : string) : exn + json :=
  if String.eqb path "tables_config.json" then inr content
  else inl FileNotFoundError.

Definition three_tables : json :=
  config_of [table "users"; table "orders"; table "events"].

(** The store refuses the creation of [orders]. *)
Definition orders_denied : faults :=
  {| on_load := fun _ => None;
     on_create := fun n =>
       if String.eqb n "orders"
       then Some (ClientError "AccessDeniedException") else None;
     on_wait := fun _ => None;
     on_list := None;
     raced := fun _ => false |}.

(** Another process creates [orders] between the check and the creation. *)
Definition orders_raced : faults :=
  {| on_load := fun _ => None;
     on_create := fun _ => None;
     on_wait := fun _ => None;
     on_list := None;
     raced := String.eqb "orders" |}.

(** The waiter of [orders] runs out of attempts. *)
Definition orders_stuck : faults :=
  {| on_load := fun _ => None;
     on_create := fun _ => None;
     on_wait := fun n =>
       if String.eqb n "orders"
       then Some (WaiterError "Max attempts exceeded") else None;
     on_list := None;
     raced := fun _ => false |}.

(** The caller may not describe tables. *)
Definition load_denied : faults :=
  {| on_load := fun _ => Some (ClientError "AccessDeniedException");
     on_create := fun _ => None;
     on_wait := fun _ => None;
     on_list := None;
     raced := fun _ => false |}.

(** The store cannot be reached for listing. *)
Definition list_unreachable : faults :=
  {| on_load := fun _ => None;
     on_create := fun _ => None;
     on_wait := fun _ => None;
     on_list := Some (BotoCoreError "EndpointConnectionError");
     raced := fun _ => false |}.

(** *** Sample stores *)

Definition config_path : string := "tables_config.json".


Definition plain_store : client (list string) :=
  in_memory (one_file three_tables) no_faults.

Definition denying_store : client (list string) :=
  in_memory (one_file three_tables) orders_denied.

Definition racing_store : client (list string) :=
  in_memory (one_file three_tables) orders_raced.

Definition stuck_store : client (list string) :=
  in_memory (one_file three_tables) orders_stuck.

Definition unauthorized_store : client (list string) :=
  in_memory (one_file three_tables) load_denied.

Definition unreachable_store : client (list string) :=
  in_memory (one_file three_tables) list_unreachable.


(** The parameters the migrator prepares for the sample tables. *)
Definition table_params (name : string) : create_params :=
  {| TableName := JStr name;
     KeySchema := [JObj [("AttributeName", JStr "username");
                         ("KeyType", JStr "HASH")]];
     AttributeDefinitions := [JObj [("AttributeName", JStr "username");
                                    ("AttributeType", JStr "S")]];
     BillingMode := JStr "PAY_PER_REQUEST";
     GlobalSecondaryIndexes := None;
     LocalSecondaryIndexes := None |}.


(** *** More sample configurations *)

(** A descriptor without [name]. *)
Definition nameless : json :=
  JObj [("billing_mode", JStr "PAY_PER_REQUEST")].

(** A descriptor without [billing_mode]. *)
Definition table_without_billing (name : string) : json :=
  JObj [("name", JStr name);
        ("key_schema",
         JArr [JObj [("attribute_name", JStr "username");
                     ("key_type", JStr "HASH")]]);
        ("attributes",
         JArr [JObj [("name", JStr "username"); ("type", JStr "S")]])].



(** A configuration file that holds an object without [tables]. *)
Definition no_tables_store : client (list string) :=
  in_memory (one_file (JObj [("version", JNum 1)])) no_faults.


End InMemory.

(** ** main.py: the request model and the two handlers *)

Module Web.
Import Json Datetime Main Store.

(** [a >= b] on dates, as on the tuples (year, month, day). *)
Definition date_geb (a b : date) : bool :=
  (year b <? year a) ||
  ((year a =? year b) &&
   ((month b <? month a) || ((month a =? month b) && (day b <=? day a)))).

(** The validator of [HelloRequest.dateOfBirth]; [today] is the value of
    [date.today()] when the request is validated. *)
Definition date_must_be_before_today (v today : date) : exn + date :=
  if date_geb v today
  then inl (ValueError "dateOfBirth must be a date before today.")
  else inr v.

(** A validated request body. *)
Record HelloRequest : Type := mk_HelloRequest { dateOfBirth : date }.

(** What a handler raises: a Python exception that nothing handles, or
    FastAPI's [HTTPException]. *)
Inductive web_exn : Type :=
| Unhandled (e : exn)
| HTTPException (status_code : Z) (detail : string).

(** What a handler returns: a [Response] with a status and no body, or a
    [dict] that FastAPI sends as JSON with status 200. *)
Inductive response : Type :=
| Response (status_code : Z)
| Body (content : json).

(** The calls on the boto3 [Table] resource: [put_item(Item=item)] and
    [get_item(Key=key)], the latter returning the response [dict]. *)
Record table_client (S : Type) : Type := mk_table_client {
  put_item : list (string * json) -> S -> (exn + unit) * S;
  get_item : list (string * json) -> S -> (exn + json) * S
}.

Arguments put_item {S} _ _ _.
Arguments get_item {S} _ _ _.

(** One constructor per logging statement of the two store helpers. *)
Inductive web_message : Type :=
| Storing_birthday (username date_of_birth : string)
| Successfully_stored (username : string)
| Failed_to_store (username : string) (e : exn)
| Connection_error_storing (username : string) (e : exn)
| Getting_birthday (username : string)
| Found_birthday (username : string) (date_of_birth : json)
| No_birthday_found (username : string)
| Failed_to_get (username : string) (e : exn)
| Connection_error_getting (username : string) (e : exn).

Inductive web_event : Type :=
| PutItem (item : list (string * json))
| GetItem (key : list (string * json))
| WebLog (l : level) (m : web_message).

Section Handlers.

Context {S : Type}.
Variable table : table_client S.

(** A computation of a handler, as for the migrator. *)
Definition W (A : Type) : Type := S -> (web_exn + A) * S * list web_event.

Definition wret {A} (a : A) : W A := fun s => (inr a, s, []).

Definition wraise {A} (e : web_exn) : W A := fun s => (inl e, s, []).

Definition wbind {A B} (m : W A) (f : A -> W B) : W B :=
  fun s =>
    match m s with
    | (inl e, s1, t1) => (inl e, s1, t1)
    | (inr a, s1, t1) =>
        match f a s1 with
        | (r, s2, t2) => (r, s2, t1 ++ t2)
        end
    end.

Definition wlog (l : level) (m : web_message) : W unit :=
  fun s => (inr tt, s, [WebLog l m]).

Notation "x <- m ;; k" := (wbind m (fun x => k))
  (at level 61, m at next level, right associativity).
Notation "m ;;; k" := (wbind m (fun _ => k))
  (at level 61, right associativity).

Definition store_birthday (username date_of_birth : string) : W unit :=
  wlog INFO (Storing_birthday username date_of_birth) ;;;
  fun s =>
    let item := [("username", JStr username);
                 ("dateOfBirth", JStr date_of_birth)] in
    match put_item table item s with
    | (inr _, s1) =>
        (inr tt, s1,
         [PutItem item; WebLog INFO (Successfully_stored username)])
    | (inl (ClientError code), s1) =>
        (inl (HTTPException 500 "Failed to store birthday"), s1,
         [PutItem item;
          WebLog ERROR (Failed_to_store username (ClientError code))])
    | (inl e, s1) =>
        (inl (HTTPException 503 "Database connection error"), s1,
         [PutItem item; WebLog ERROR (Connection_error_storing username e)])
    end.

(** The body of the [try] of [get_birthday], after the store answered. *)
Definition read_date_of_birth (response : json) : exn + json :=
  match get_default response "Item" (JObj []) with
  | inl e => inl e
  | inr item => get_default item "dateOfBirth" JNull
  end.

(** [get_birthday]: the stored value, or [None] ([JNull]). *)
Definition get_birthday (username : string) : W json :=
  wlog INFO (Getting_birthday username) ;;;
  fun s =>
    let key := [("username", JStr username)] in
    match get_item table key s with
    | (inr response, s1) =>
        match read_date_of_birth response with
        | inr date_of_birth =>
            (inr date_of_birth, s1,
             [GetItem key;
              WebLog INFO
                (if falsy date_of_birth then No_birthday_found username
                 else Found_birthday username date_of_birth)])
        | inl e =>
            (inr JNull, s1,
             [GetItem key;
              WebLog ERROR (Connection_error_getting username e)])
        end
    | (inl (ClientError code), s1) =>
        (inr JNull, s1,
         [GetItem key; WebLog ERROR (Failed_to_get username (ClientError code))])
    | (inl e, s1) =>
        (inr JNull, s1,
         [GetItem key; WebLog ERROR (Connection_error_getting username e)])
    end.

(** [PUT /hello/{username}], after FastAPI validated the path and the
    body. *)
Definition put_hello (username : string) (body : option HelloRequest)
  : W response :=
  match body with
  | None => wraise (HTTPException 422 "Request body required.")
  | Some request =>
      store_birthday username (isoformat (dateOfBirth request)) ;;;
      wret (Response 204)
  end.

(** [str(n)] of an [int]. *)
Definition str_int (n : Z) : string :=
  DecimalString.NilZero.string_of_int (Z.to_int n).

Definition message (text : string) : response :=
  Body (JObj [("message", JStr text)]).

(** The helper on a stored value: [strptime] wants a [str]. *)
Definition days_of_stored (date_of_birth : json) (today : date) : exn + Z :=
  match date_of_birth with
  | JStr s => calculate_days_until_birthday s today
  | _ => inl TypeError
  end.

(** [GET /hello/{username}], after FastAPI validated the path; [today] is
    the value of [date.today()] in the helper. *)
Definition get_hello (username : string) (today : date) : W response :=
  date_of_birth <- get_birthday username ;;
  if negb (falsy date_of_birth) then
    match days_of_stored date_of_birth today with
    | inl e => wraise (Unhandled e)
    | inr days_until_birthday_ =>
        if days_until_birthday_ =? 0 then
          wret (message ("Hello, " ++ username ++ "! Happy birthday!")%string)
        else
          let day_text := if days_until_birthday_ =? 1 then "day" else "days" in
          wret (message ("Hello, " ++ username ++ "! Your birthday is in "
                         ++ str_int days_until_birthday_ ++ " " ++ day_text)
                        %string)
    end
  else wret (message "user not found").

(** *** Vocabulary of the properties *)

(** The greeting [get_hello] builds for a user whose birthday is in [n]
    days. *)
Definition greeting (username : string) (n : Z) : string :=
  let day_text := if n =? 1 then "day" else "days" in
  if n =? 0 then ("Hello, " ++ username ++ "! Happy birthday!")%string
  else ("Hello, " ++ username ++ "! Your birthday is in " ++ str_int n ++ " "
        ++ day_text)%string.

(** The item [store_birthday] puts. *)
Definition birthday_item (username date_of_birth : string)
  : list (string * json) :=
  [("username", JStr username); ("dateOfBirth", JStr date_of_birth)].

(** The key [get_birthday] asks for. *)
Definition birthday_key (username : string) : list (string * json) :=
  [("username", JStr username)].

(** A table that gives back what was put: after a [put_item] that
    succeeded, [get_item] on the key of the item returns the item. *)
Definition reads_its_writes : Prop :=
  forall (username : string) (v : json) (s s1 : S),
    put_item table [("username", JStr username); ("dateOfBirth", v)] s
      = (inr tt, s1) ->
    exists s2,
      get_item table [("username", JStr username)] s1
        = (inr (JObj [("Item", JObj [("username", JStr username);
                                      ("dateOfBirth", v)])]), s2).

End Handlers.

End Web.

(** ** An in-memory table *)

Module InMemoryTable.
Import Json Web.

(** The items by user name, the last one put first; [put_fault] and
    [get_fault] make the calls raise. *)
Record faults : Type := mk_faults {
  put_fault : option exn;
  get_fault : option exn
}.

Definition items : Type := list (string * list (string * json)).

Fixpoint lookup (username : string) (table : items)
  : option (list (string * json)) :=
  match table with
  | [] => None
  | (u, item) :: rest =>
      if String.eqb username u then Some item else lookup username rest
  end.

Definition key_of (item : list (string * json)) : option string :=
  match assoc "username" item with
  | Some (JStr u) => Some u
  | _ => None
  end.

Definition put (f : faults) (item : list (string * json)) (table : items)
  : (exn + unit) * items :=
  match put_fault f with
  | Some e => (inl e, table)
  | None =>
      match key_of item with
      | Some u => (inr tt, (u, item) :: table)
      | None => (inl (ClientError "ValidationException"), table)
      end
  end.

Definition get (f : faults) (key : list (string * json)) (table : items)
  : (exn + json) * items :=
  match get_fault f with
  | Some e => (inl e, table)
  | None =>
      match key_of key with
      | Some u =>
          match lookup u table with
          | Some item => (inr (JObj [("Item", JObj item)]), table)
          | None => (inr (JObj []), table)
          end
      | None => (inl (ClientError "ValidationException"), table)
      end
  end.

Definition in_memory_table (f : faults) : table_client items :=
  {| put_item := put f; get_item := get f |}.

Definition sound : faults := {| put_fault := None; get_fault := None |}.

Definition get_throttled : faults :=
  {| put_fault := None;
     get_fault := Some (ClientError "ProvisionedThroughputExceededException") |}.

Definition put_denied : faults :=
  {| put_fault := Some (ClientError "AccessDeniedException");
     get_fault := None |}.

Definition unreachable : faults :=
  {| put_fault := Some (BotoCoreError "EndpointConnectionError");
     get_fault := Some (BotoCoreError "EndpointConnectionError") |}.

End InMemoryTable.

(** * Properties *)

(** ** The calendar *)

Module DatetimeFacts.
Import Datetime.

Ltac split_bools :=
  repeat match goal with
  | H : _ && _ = true |- _ => apply andb_prop in H; destruct H
  | H : (_ <=? _) = true |- _ => apply Z.leb_le in H
  | H : (_ <? _) = true |- _ => apply Z.ltb_lt in H
  | H : (_ =? _) = true |- _ => apply Z.eqb_eq in H
  | H : (_ <? _) = false |- _ => apply Z.ltb_ge in H
  | H : (_ =? _) = false |- _ => apply Z.eqb_neq in H
  end.

Ltac month_cases m :=
  let H := fresh "Hm" in
  assert (H : m = 1 \/ m = 2 \/ m = 3 \/ m = 4 \/ m = 5 \/ m = 6 \/
              m = 7 \/ m = 8 \/ m = 9 \/ m = 10 \/ m = 11 \/ m = 12) by lia;
  repeat (destruct H as [H | H]); subst m.

(** Unfolds the month tables at a literal month, leaving sums alone. *)
Ltac month_tables :=
  cbv beta iota delta [days_before_month days_in_month Z.ltb Z.compare
                       Pos.compare Pos.compare_cont andb] in *.

Lemma check_date_fields_bounds (y m d : Z) :
  check_date_fields y m d = true ->
  1 <= y <= 9999 /\ 1 <= m <= 12 /\ 1 <= d <= days_in_month y m.
Proof.
  unfold check_date_fields, MINYEAR, MAXYEAR. intros H. split_bools. lia.
Qed.

Lemma check_date_fields_intro (y m d : Z) :
  1 <= y <= 9999 -> 1 <= m <= 12 -> 1 <= d <= days_in_month y m ->
  check_date_fields y m d = true.
Proof.
  intros Hy Hm Hd. unfold check_date_fields, MINYEAR, MAXYEAR.
  repeat (apply andb_true_intro; split); apply Z.leb_le; lia.
Qed.

(** The constructor returns exactly on the fields that pass the check. *)
Lemma make_date_ok (y m d : Z) :
  check_date_fields y m d = true -> make_date y m d = inr (mkdate y m d).
Proof.
  unfold check_date_fields, make_date. intros H.
  repeat (apply andb_prop in H; destruct H as [H ?]).
  repeat match goal with E : _ = true |- _ => rewrite E; clear E end.
  reflexivity.
Qed.

Lemma make_date_valid (y m d : Z) (a : date) :
  make_date y m d = inr a -> valid_date a.
Proof.
  unfold make_date, valid_date, check_date_fields.
  destruct ((MINYEAR <=? y) && (y <=? MAXYEAR)) eqn:Ey; [| discriminate].
  destruct ((1 <=? m) && (m <=? 12)) eqn:Em; [| discriminate].
  destruct ((1 <=? d) && (d <=? days_in_month y m)) eqn:Ed; [| discriminate].
  simpl. intros H. injection H as <-. simpl.
  apply andb_prop in Ey, Em, Ed. destruct Ey as [-> ->], Em as [-> ->],
    Ed as [-> ->]. reflexivity.
Qed.

Lemma strptime_ymd_valid (s : string) (b : date) :
  strptime_ymd s = inr b -> valid_date b.
Proof.
  unfold strptime_ymd.
  destruct (parse_Y _) as [[y s1] |]; [| discriminate].
  destruct (parse_m _) as [[m s2] |]; [| discriminate].
  destruct (parse_d _) as [[d [| c rest]] |]; try discriminate.
  apply make_date_valid.
Qed.

(** Splits a positive number along its first [k] binary digits. *)
Ltac binary_cases p k :=
  match k with
  | O => idtac
  | Datatypes.S ?k' =>
      destruct p as [p | p |]; [binary_cases p k' | binary_cases p k' |]
  end.

Lemma digit_val_digit (n : Z) : 0 <= n <= 9 -> digit_val (digit n) = Some n.
Proof.
  intros H. destruct n as [| p | p]; [reflexivity | | lia].
  binary_cases p 4%nat; try lia; reflexivity.
Qed.

Lemma parse_Y_digits (y : Z) (rest : list ascii) :
  0 <= y <= 9999 ->
  parse_Y (digit (y / 1000 mod 10) :: digit (y / 100 mod 10) ::
           digit (y / 10 mod 10) :: digit (y mod 10) :: "-"%char :: rest)
  = Some (y, rest).
Proof.
  intros Hy. unfold parse_Y.
  rewrite !digit_val_digit by (Z.div_mod_to_equations; lia).
  replace (is_dash "-") with true by reflexivity.
  do 2 f_equal. Z.div_mod_to_equations; lia.
Qed.

Lemma parse_m_digits (m : Z) (rest : list ascii) :
  1 <= m <= 12 ->
  parse_m (digit (m / 10 mod 10) :: digit (m mod 10) :: "-"%char :: rest)
  = Some (m, rest).
Proof.
  intros Hm. month_cases m; reflexivity.
Qed.

Lemma parse_d_digits (d : Z) :
  1 <= d <= 31 ->
  parse_d [digit (d / 10 mod 10); digit (d mod 10)] = Some (d, []).
Proof.
  intros Hd. destruct d as [| p | p]; [lia | | lia].
  binary_cases p 5%nat; try lia; reflexivity.
Qed.

Lemma days_in_month_le_31 (y m : Z) : days_in_month y m <= 31.
Proof.
  unfold days_in_month.
  destruct m as [| p | p]; try lia.
  do 4 (try destruct p as [p | p |]); try lia; destruct (is_leap y); lia.
Qed.

(** Parsing the ISO string of a date gives the date back. *)
Lemma strptime_ymd_isoformat (a : date) :
  valid_date a -> strptime_ymd (isoformat a) = inr a.
Proof.
  intros Ha. pose proof (check_date_fields_bounds _ _ _ Ha) as (Hy & Hm & Hd).
  pose proof (days_in_month_le_31 (year a) (month a)) as H31.
  unfold strptime_ymd, isoformat.
  rewrite list_ascii_of_string_of_list_ascii.
  rewrite parse_Y_digits by lia.
  rewrite parse_m_digits by lia.
  rewrite parse_d_digits by lia.
  rewrite (make_date_ok _ _ _ Ha). destruct a; reflexivity.
Qed.

(** A year has 365 days, or 366 when it is a leap year. *)
Lemma year_length (y : Z) :
  days_before_year (y + 1) - days_before_year y
  = 365 + (if is_leap y then 1 else 0).
Proof.
  unfold days_before_year, is_leap.
  replace (y + 1 - 1) with y by lia.
  destruct (Z.eqb_spec (y mod 4) 0), (Z.eqb_spec (y mod 100) 0),
    (Z.eqb_spec (y mod 400) 0); simpl;
    Z.div_mod_to_equations; lia.
Qed.

(** The day of the year of a valid date. *)
Lemma day_of_year_bounds (y m d : Z) :
  check_date_fields y m d = true ->
  1 <= days_before_month y m + d <= 365 + (if is_leap y then 1 else 0).
Proof.
  intros H. apply check_date_fields_bounds in H. destruct H as (_ & Hm & Hd).
  month_cases m; month_tables; destruct (is_leap y); lia.
Qed.

(** Within a year, a later month starts after every day of an earlier one. *)
Lemma later_month_later_day (y m1 d1 m2 d2 : Z) :
  check_date_fields y m1 d1 = true ->
  check_date_fields y m2 d2 = true ->
  m1 < m2 ->
  days_before_month y m1 + d1 < days_before_month y m2 + d2.
Proof.
  intros H1 H2 Hlt.
  apply check_date_fields_bounds in H1. destruct H1 as (_ & Hm1 & Hd1).
  apply check_date_fields_bounds in H2. destruct H2 as (_ & Hm2 & Hd2).
  month_cases m1; month_cases m2; try lia;
    month_tables; destruct (is_leap y); lia.
Qed.

(** A date that is not February 29 exists in every year. *)
Lemma replace_year_total (b : date) (y : Z) :
  valid_date b -> 1 <= y <= 9999 ->
  ~ (month b = 2 /\ day b = 29) ->
  replace_year b y = inr (mkdate y (month b) (day b)).
Proof.
  intros Hb Hy Hfeb. unfold replace_year.
  apply make_date_ok, check_date_fields_intro; auto.
  - apply check_date_fields_bounds in Hb. tauto.
  - apply check_date_fields_bounds in Hb. destruct Hb as (_ & Hm & Hd).
    destruct b as [yb m d]; simpl in *.
    month_cases m; month_tables; try lia.
    destruct (is_leap yb), (is_leap y); lia.
Qed.

(** Two leap years never follow each other. *)
Lemma is_leap_after (y : Z) : is_leap y = true -> is_leap (y + 1) = false.
Proof.
  unfold is_leap. intros H. apply andb_prop in H. destruct H as [H4 _].
  apply Z.eqb_eq in H4.
  destruct (Z.eqb_spec ((y + 1) mod 4) 0) as [E |]; [| reflexivity].
  exfalso. Z.div_mod_to_equations. lia.
Qed.

End DatetimeFacts.

(** ** The calendar: order and distance *)

Module CalendarOrder.
Import Datetime DatetimeFacts.

(** Years start later and later. *)
Lemma days_before_year_mono (y y' : Z) :
  y <= y' -> days_before_year y <= days_before_year y'.
Proof.
  unfold days_before_year. intros H. Z.div_mod_to_equations. lia.
Qed.

(** The ordinal of a valid date lies within its year. *)
Lemma toordinal_in_year (a : date) :
  valid_date a ->
  days_before_year (year a) < toordinal a <= days_before_year (year a + 1).
Proof.
  intros Ha. pose proof (day_of_year_bounds _ _ _ Ha) as Hdoy.
  pose proof (year_length (year a)) as Hlen.
  unfold toordinal, ymd2ord. lia.
Qed.

(** Dates are ordered as their ordinals are. *)
Lemma date_ltb_toordinal (a b : date) :
  valid_date a -> valid_date b ->
  (date_ltb a b = true <-> toordinal a < toordinal b).
Proof.
  intros Ha Hb.
  pose proof (toordinal_in_year a Ha) as Ia.
  pose proof (toordinal_in_year b Hb) as Ib.
  unfold date_ltb.
  destruct (Z.ltb_spec (year a) (year b)) as [Hy | Hy]; simpl.
  - split; [intros _ | reflexivity].
    pose proof (days_before_year_mono (year a + 1) (year b)). lia.
  - destruct (Z.eqb_spec (year a) (year b)) as [Ey | Ney]; simpl.
    + unfold valid_date in Ha, Hb. unfold toordinal, ymd2ord.
      rewrite Ey in *.
      destruct (Z.ltb_spec (month a) (month b)) as [Hm | Hm]; simpl.
      * split; [intros _ | reflexivity].
        pose proof (later_month_later_day _ _ _ _ _ Ha Hb Hm). lia.
      * destruct (Z.eqb_spec (month a) (month b)) as [Em | Nem]; simpl.
        -- rewrite Em. split; [intros H; apply Z.ltb_lt in H; lia |].
           intros H. apply Z.ltb_lt. lia.
        -- split; [discriminate |]. intros H. exfalso.
           assert (Hgt : month b < month a) by lia.
           pose proof (later_month_later_day _ _ _ _ _ Hb Ha Hgt). lia.
    + split; [discriminate |]. intros H. exfalso.
      pose proof (days_before_year_mono (year b + 1) (year a)). lia.
Qed.

(** The same day of the next year is 365 or 366 days later. *)
Lemma next_anniversary_distance (y m d : Z) :
  check_date_fields y m d = true ->
  check_date_fields (y + 1) m d = true ->
  365 <= ymd2ord (y + 1) m d - ymd2ord y m d <= 366.
Proof.
  intros H1 H2.
  pose proof (check_date_fields_bounds _ _ _ H1) as (_ & Hm & Hd1).
  pose proof (check_date_fields_bounds _ _ _ H2) as (_ & _ & Hd2).
  pose proof (year_length y) as Hlen.
  pose proof (is_leap_after y) as Hnext.
  unfold ymd2ord.
  month_cases m; month_tables;
    destruct (is_leap y); destruct (is_leap (y + 1));
    try (specialize (Hnext eq_refl); discriminate); lia.
Qed.

End CalendarOrder.

(** ** main.py *)

Module MainFacts.
Import Datetime Main DatetimeFacts.

(** The helper on a string that parses to a birth date other than a
    February 29. *)
Lemma days_until_birthday_parsed (s : string) (birth today : date) :
  strptime_ymd s = inr birth ->
  valid_date today ->
  year today < MAXYEAR ->
  ~ (month birth = 2 /\ day birth = 29) ->
  let this_year := mkdate (year today) (month birth) (day birth) in
  let next_year := mkdate (year today + 1) (month birth) (day birth) in
  exists n : Z,
    calculate_days_until_birthday s today = inr n /\
    valid_date this_year /\ valid_date next_year /\
    n = (if date_ltb this_year today
         then sub_days next_year today
         else sub_days this_year today) /\
    0 <= n /\
    (n = 0 <-> month birth = month today /\ day birth = day today).
Proof.
  intros Hparse Htoday Hmax Hfeb this_year next_year.
  pose proof (strptime_ymd_valid _ _ Hparse) as Hbirth.
  pose proof (check_date_fields_bounds _ _ _ Htoday) as (Hy & _ & _).
  unfold MAXYEAR in Hmax.
  assert (Hthis : replace_year birth (year today) = inr this_year)
    by (apply replace_year_total; auto; lia).
  assert (Hnext : replace_year birth (year today + 1) = inr next_year)
    by (apply replace_year_total; auto; lia).
  assert (Vthis : valid_date this_year).
  { exact (make_date_valid _ _ _ _ Hthis). }
  assert (Vnext : valid_date next_year).
  { exact (make_date_valid _ _ _ _ Hnext). }
  unfold calculate_days_until_birthday. rewrite Hparse, Hthis.
  destruct (date_ltb this_year today) eqn:Hlt.
  - rewrite Hnext. eexists. split; [reflexivity |].
    split; [exact Vthis |]. split; [exact Vnext |]. split; [reflexivity |].
    unfold date_ltb, this_year in Hlt. simpl in Hlt.
    rewrite Z.ltb_irrefl, Z.eqb_refl in Hlt. simpl in Hlt.
    unfold sub_days, toordinal, ymd2ord, next_year. simpl.
    pose proof (year_length (year today)) as Hlen.
    pose proof (day_of_year_bounds _ _ _ Htoday) as Hdoy.
    pose proof (day_of_year_bounds _ _ _ Vnext) as Hdoy'. simpl in Hdoy'.
    split; [lia |]. split; [lia |].
    intros [Hm Hd]. rewrite Hm, Hd, !Z.ltb_irrefl, andb_false_r in Hlt.
    discriminate.
  - eexists. split; [reflexivity |].
    split; [exact Vthis |]. split; [exact Vnext |]. split; [reflexivity |].
    unfold date_ltb, this_year in Hlt. simpl in Hlt.
    rewrite Z.ltb_irrefl, Z.eqb_refl in Hlt. simpl in Hlt.
    apply orb_false_elim in Hlt. destruct Hlt as [Hm Hd].
    apply Z.ltb_ge in Hm.
    unfold sub_days, toordinal, ymd2ord, this_year. simpl.
    destruct (Z.eq_dec (month birth) (month today)) as [Heq | Hne].
    + rewrite Heq, Z.eqb_refl in Hd. simpl in Hd. apply Z.ltb_ge in Hd.
      rewrite Heq. split; [lia |]. split; [lia |]. intros [_ ?]. lia.
    + assert (Hgt : month today < month birth) by lia.
      pose proof (later_month_later_day _ _ _ _ _ Htoday Vthis Hgt).
      simpl in *. split; [lia |]. split; [lia |]. intros [? _]. lia.
Qed.

(** C8.  For every birth date strictly before today that is not a February
    29, with today a date before the last year of the calendar, the helper
    returns on the stored string of the birth date a number [n]: the days
    from today to next year's anniversary when this year's is strictly
    earlier than today, to this year's otherwise; [n] is not negative, and
    is zero exactly when today is the anniversary.  With today 2024-03-10,
    the birth date 2024-03-05 gives 360 and 2024-03-10 gives 0. *)
Theorem days_until_birthday :
  (forall birth today : date,
      valid_date birth ->
      valid_date today ->
      date_ltb birth today = true ->
      year today < MAXYEAR ->
      ~ (month birth = 2 /\ day birth = 29) ->
      let this_year := mkdate (year today) (month birth) (day birth) in
      let next_year := mkdate (year today + 1) (month birth) (day birth) in
      exists n : Z,
        calculate_days_until_birthday (isoformat birth) today = inr n /\
        valid_date this_year /\ valid_date next_year /\
        n = (if date_ltb this_year today
             then sub_days next_year today
             else sub_days this_year today) /\
        0 <= n /\
        (n = 0 <-> month birth = month today /\ day birth = day today))
  /\ calculate_days_until_birthday "2024-03-05" (mkdate 2024 3 10) = inr 360
  /\ calculate_days_until_birthday "2024-03-10" (mkdate 2024 3 10) = inr 0.
Proof.
  split; [| split; reflexivity].
  intros birth today Hbirth Htoday _ Hmax Hfeb.
  apply days_until_birthday_parsed; auto.
  now apply strptime_ymd_isoformat.
Qed.

(** The theorem at the birth date 2000-03-15 and today 2024-03-10. *)
Lemma days_until_birthday_witness :
  exists n : Z,
    calculate_days_until_birthday "2000-03-15" (mkdate 2024 3 10) = inr n /\
    0 <= n.
Proof.
  destruct (proj1 days_until_birthday (mkdate 2000 3 15) (mkdate 2024 3 10))
    as (n & Hn & _ & _ & _ & Hpos & _).
  - reflexivity.
  - reflexivity.
  - reflexivity.
  - reflexivity.
  - simpl. lia.
  - exists n. split; assumption.
Defined.

(** No year after a leap year is a leap year. *)
Lemma is_leap_next (y : Z) : is_leap y = true -> is_leap (y + 1) = false.
Proof.
  unfold is_leap. intros H. apply andb_prop in H. destruct H as [H4 _].
  apply Z.eqb_eq in H4.
  destruct (Z.eqb_spec ((y + 1) mod 4) 0) as [E |]; [| reflexivity].
  exfalso. Z.div_mod_to_equations. lia.
Qed.

(** The helper raises on every February 29 whose anniversary falls in a year
    that is not a leap year: the current year, or the next one when this
    year's February 29 is past. *)
Lemma leap_day_raises (birth today : date) :
  valid_date birth ->
  month birth = 2 -> day birth = 29 ->
  valid_date today ->
  is_leap (year today) = false \/
  date_ltb (mkdate (year today) 2 29) today = true ->
  calculate_days_until_birthday (isoformat birth) today
    = inl (ValueError "day is out of range for month").
Proof.
  intros Hbirth Hm Hd Htoday Hcase.
  pose proof (check_date_fields_bounds _ _ _ Htoday) as (Hy & _ & _).
  unfold calculate_days_until_birthday.
  rewrite (strptime_ymd_isoformat _ Hbirth).
  unfold replace_year. rewrite Hm, Hd.
  assert (Hraise : forall y, 1 <= y <= 9999 -> is_leap y = false ->
            make_date y 2 29 = inl (ValueError "day is out of range for month")).
  { intros y Hy' Hleap. unfold make_date, MINYEAR, MAXYEAR.
    replace ((1 <=? y) && (y <=? 9999)) with true
      by (symmetry; apply andb_true_intro; split; apply Z.leb_le; lia).
    unfold days_in_month. rewrite Hleap. reflexivity. }
  destruct (is_leap (year today)) eqn:Hleap.
  - destruct Hcase as [| Hpast]; [discriminate |].
    rewrite make_date_ok
      by (apply check_date_fields_intro; try lia;
          unfold days_in_month; rewrite Hleap; lia).
    rewrite Hpast.
    destruct (Z.eq_dec (year today) 9999) as [E | NE].
    + rewrite E in Hleap. discriminate.
    + rewrite Hraise; [reflexivity | lia | now apply is_leap_next].
  - rewrite Hraise; [reflexivity | lia | exact Hleap].
Qed.

(** C9.  A birth date of February 29 makes the helper raise when the year of
    the anniversary is not a leap year: in 2023 at the first [replace], and
    in 2024 after the anniversary at the second one (for 2025). *)
Theorem leap_day_birthday_raises :
  calculate_days_until_birthday "2000-02-29" (mkdate 2023 3 10)
    = inl (ValueError "day is out of range for month") /\
  calculate_days_until_birthday "2000-02-29" (mkdate 2024 3 10)
    = inl (ValueError "day is out of range for month").
Proof. split; reflexivity. Qed.

End MainFacts.

(** ** main.py: more on the dates *)

Module MainExtras.
Import Datetime Main Web DatetimeFacts CalendarOrder MainFacts.

(** X1.  Parsing the ISO string of a valid date gives the date back, and two
    valid dates with the same string are the same date: what [put_hello]
    stores is what the helper reads. *)
Theorem stored_birthday_parses_back (a b : date) :
  valid_date a -> valid_date b ->
  strptime_ymd (isoformat a) = inr a /\
  (isoformat a = isoformat b -> a = b).
Proof.
  intros Ha Hb. split; [now apply strptime_ymd_isoformat |].
  intros E. pose proof (strptime_ymd_isoformat a Ha) as Pa.
  rewrite E, (strptime_ymd_isoformat b Hb) in Pa. now injection Pa.
Qed.

Lemma stored_birthday_witness :
  strptime_ymd (isoformat (mkdate 1990 5 15)) = inr (mkdate 1990 5 15).
Proof.
  apply (proj1 (stored_birthday_parses_back (mkdate 1990 5 15)
                  (mkdate 2024 2 29) eq_refl eq_refl)).
Defined.

(** The range of the helper on a birth date that is not a February 29. *)
Lemma days_until_birthday_range (birth today : date) :
  valid_date birth ->
  valid_date today ->
  year today < MAXYEAR ->
  ~ (month birth = 2 /\ day birth = 29) ->
  exists n : Z,
    calculate_days_until_birthday (isoformat birth) today = inr n /\
    0 <= n <= 365.
Proof.
  intros Hbirth Htoday Hmax Hfeb.
  destruct (days_until_birthday_parsed (isoformat birth) birth today
              (strptime_ymd_isoformat _ Hbirth) Htoday Hmax Hfeb)
    as (n & Hn & Vthis & Vnext & Heq & Hpos & _).
  exists n. split; [exact Hn |]. split; [exact Hpos |].
  pose proof (next_anniversary_distance _ _ _ Vthis Vnext) as Hdist.
  pose proof (toordinal_in_year _ Htoday) as It.
  pose proof (toordinal_in_year _ Vthis) as Ia. cbn [year month day] in Ia.
  pose proof (year_length (year today)) as Hlen.
  destruct (date_ltb _ today) eqn:Hlt.
  - apply (date_ltb_toordinal _ _ Vthis Htoday) in Hlt.
    unfold sub_days, toordinal in *. cbn [year month day] in *.
    destruct (is_leap (year today)); lia.
  - unfold sub_days, toordinal in *. cbn [year month day] in *.
    destruct (is_leap (year today)); lia.
Qed.

(** X2.  The helper never answers more than 365: for a birth date that is
    not a February 29 the number of days is between 0 and 365. *)
Theorem days_until_birthday_at_most_365 (birth today : date) :
  valid_date birth ->
  valid_date today ->
  year today < MAXYEAR ->
  ~ (month birth = 2 /\ day birth = 29) ->
  exists n : Z,
    calculate_days_until_birthday (isoformat birth) today = inr n /\
    0 <= n <= 365.
Proof. exact (days_until_birthday_range birth today). Qed.

Lemma at_most_365_witness :
  exists n : Z,
    calculate_days_until_birthday "2023-03-01" (mkdate 2023 3 2) = inr n /\
    0 <= n <= 365.
Proof.
  apply (days_until_birthday_at_most_365 (mkdate 2023 3 1) (mkdate 2023 3 2)).
  - reflexivity.
  - reflexivity.
  - reflexivity.
  - simpl. lia.
Defined.

(** X3.  A date that lies [k] days ahead of today, with [k] from 0 to 364,
    gives exactly [k] (today gives 0, tomorrow 1, the day in five days 5),
    also across the end of the year. *)
Theorem birthday_in_k_days (b today : date) :
  valid_date b ->
  valid_date today ->
  year today < MAXYEAR ->
  ~ (month b = 2 /\ day b = 29) ->
  0 <= sub_days b today <= 364 ->
  calculate_days_until_birthday (isoformat b) today
    = inr (sub_days b today).
Proof.
  intros Hb Htoday Hmax Hfeb Hk.
  destruct (days_until_birthday_parsed (isoformat b) b today
              (strptime_ymd_isoformat _ Hb) Htoday Hmax Hfeb)
    as (n & Hn & Vthis & Vnext & Heq & _ & _).
  rewrite Hn. f_equal. subst n.
  pose proof (next_anniversary_distance _ _ _ Vthis Vnext) as Hdist.
  cbn [year month day] in Hdist.
  pose proof (toordinal_in_year _ Htoday) as It.
  pose proof (toordinal_in_year _ Hb) as Ib.
  pose proof (year_length (year today)) as Hlen.
  pose proof (year_length (year today + 1)) as Hlen'.
  unfold sub_days in *.
  destruct (Z.lt_trichotomy (year b) (year today)) as [Hy | [Hy | Hy]].
  - exfalso.
    pose proof (days_before_year_mono (year b + 1) (year today)). lia.
  - assert (Eb : mkdate (year today) (month b) (day b) = b)
      by (destruct b; simpl in *; now subst).
    rewrite Eb in *.
    destruct (date_ltb b today) eqn:Hlt; [| reflexivity].
    apply (date_ltb_toordinal _ _ Hb Htoday) in Hlt. lia.
  - assert (Hy1 : year b = year today + 1).
    { destruct (Z.eq_dec (year b) (year today + 1)) as [E | NE];
        [exact E | exfalso].
      pose proof (days_before_year_mono (year today + 2) (year b)).
      replace (year today + 1 + 1) with (year today + 2) in Hlen' by lia.
      destruct (is_leap (year today)), (is_leap (year today + 1)); lia. }
    assert (Ob : toordinal b = ymd2ord (year today + 1) (month b) (day b))
      by (unfold toordinal; now rewrite Hy1).
    destruct (date_ltb _ today) eqn:Hlt.
    + unfold toordinal at 1. cbn [year month day]. now rewrite <- Ob.
    + exfalso.
      assert (Hge : ~ toordinal (mkdate (year today) (month b) (day b))
                      < toordinal today).
      { intros H. apply (date_ltb_toordinal _ _ Vthis Htoday) in H.
        rewrite H in Hlt. discriminate. }
      unfold toordinal at 1 in Hge. cbn [year month day] in Hge. lia.
Qed.

Lemma birthday_in_k_days_witness :
  calculate_days_until_birthday "2024-01-04" (mkdate 2023 12 30) = inr 5.
Proof.
  apply (birthday_in_k_days (mkdate 2024 1 4) (mkdate 2023 12 30)).
  - reflexivity.
  - reflexivity.
  - reflexivity.
  - simpl. lia.
  - vm_compute. split; discriminate.
Defined.

(** X4.  For a birth date of February 29 the helper returns only in a leap
    year up to its February 29, and then at most 59; in every other case it
    raises [ValueError]. *)
Theorem leap_day_birthday_in_general (birth today : date) :
  valid_date birth ->
  month birth = 2 -> day birth = 29 ->
  valid_date today ->
  let feb29 := mkdate (year today) 2 29 in
  calculate_days_until_birthday (isoformat birth) today
    = (if is_leap (year today) && negb (date_ltb feb29 today)
       then inr (sub_days feb29 today)
       else inl (ValueError "day is out of range for month")) /\
  (is_leap (year today) && negb (date_ltb feb29 today) = true ->
   0 <= sub_days feb29 today <= 59).
Proof.
  intros Hbirth Hm Hd Htoday feb29.
  pose proof (check_date_fields_bounds _ _ _ Htoday) as (Hy & Hmt & Hdt).
  destruct (is_leap (year today)) eqn:Hleap; simpl.
  - assert (Vfeb : valid_date feb29).
    { apply check_date_fields_intro; simpl; try lia.
      unfold days_in_month. rewrite Hleap. lia. }
    destruct (date_ltb feb29 today) eqn:Hlt; simpl.
    + split; [| discriminate].
      apply leap_day_raises; auto.
    + split.
      * unfold calculate_days_until_birthday.
        rewrite (strptime_ymd_isoformat _ Hbirth).
        unfold replace_year. rewrite Hm, Hd.
        rewrite (make_date_ok (year today) 2 29 Vfeb). fold feb29.
        rewrite Hlt. reflexivity.
      * intros _.
        assert (Hge : ~ toordinal feb29 < toordinal today).
        { intros H. apply (date_ltb_toordinal _ _ Vfeb Htoday) in H.
          rewrite H in Hlt. discriminate. }
        pose proof (day_of_year_bounds _ _ _ Htoday) as Hdoy.
        unfold sub_days, toordinal, ymd2ord, feb29 in *.
        cbn [year month day] in *.
        assert (E : days_before_month (year today) 2 = 31) by reflexivity.
        rewrite E in *. lia.
  - split; [| discriminate]. apply leap_day_raises; auto.
Qed.

Lemma leap_day_witness :
  calculate_days_until_birthday "2000-02-29" (mkdate 2024 2 10) = inr 19.
Proof.
  apply (proj1 (leap_day_birthday_in_general (mkdate 2000 2 29)
                  (mkdate 2024 2 10) eq_refl eq_refl eq_refl eq_refl)).
Defined.

Lemma date_geb_ltb (a b : date) : date_geb a b = negb (date_ltb a b).
Proof.
  unfold date_geb, date_ltb.
  destruct (Z.ltb_spec (year b) (year a)), (Z.ltb_spec (year a) (year b)),
    (Z.eqb_spec (year a) (year b)),
    (Z.ltb_spec (month b) (month a)), (Z.ltb_spec (month a) (month b)),
    (Z.eqb_spec (month a) (month b)),
    (Z.leb_spec (day b) (day a)), (Z.ltb_spec (day a) (day b));
    simpl; try reflexivity; exfalso; lia.
Qed.

(** X5.  The validator of the request body accepts a date exactly when it
    lies at least one day before today; today itself and every later date
    are refused with a [ValueError]. *)
Theorem validator_accepts_earlier_days_only (v today : date) :
  valid_date v -> valid_date today ->
  (date_must_be_before_today v today = inr v <-> 1 <= sub_days today v) /\
  (sub_days today v <= 0 ->
   date_must_be_before_today v today
     = inl (ValueError "dateOfBirth must be a date before today.")).
Proof.
  intros Hv Htoday. unfold date_must_be_before_today, sub_days.
  rewrite date_geb_ltb.
  pose proof (date_ltb_toordinal _ _ Hv Htoday) as Hord.
  destruct (date_ltb v today); simpl.
  - split; [split; [intros _ | reflexivity] |].
    + assert (toordinal v < toordinal today) by now apply Hord. lia.
    + intros H. assert (toordinal v < toordinal today) by now apply Hord. lia.
  - split; [split; [discriminate |] | reflexivity].
    intros H. assert (true = false) by (symmetry; apply Hord; lia).
    discriminate.
Qed.

Lemma validator_witness :
  date_must_be_before_today (mkdate 2024 3 10) (mkdate 2024 3 10)
    = inl (ValueError "dateOfBirth must be a date before today.").
Proof.
  apply (proj2 (validator_accepts_earlier_days_only (mkdate 2024 3 10)
                  (mkdate 2024 3 10) eq_refl eq_refl)).
  vm_compute. discriminate.
Defined.

End MainExtras.

(** ** main.py: the handlers *)

Module WebFacts.
Import Json Store Datetime Main Web DatetimeFacts MainFacts MainExtras.

Section Handlers.

Context {S : Type}.
Variable table : table_client S.

(** [put_hello] by the answer of the store. *)
Lemma put_hello_cases (username : string) (request : HelloRequest) (s : S) :
  let date_of_birth := isoformat (dateOfBirth request) in
  let item := birthday_item username date_of_birth in
  let storing := WebLog INFO (Storing_birthday username date_of_birth) in
  put_hello table username (Some request) s =
  match put_item table item s with
  | (inr _, s1) =>
      (inr (Response 204), s1,
       [storing; PutItem item; WebLog INFO (Successfully_stored username)])
  | (inl (ClientError code), s1) =>
      (inl (HTTPException 500 "Failed to store birthday"), s1,
       [storing; PutItem item;
        WebLog ERROR (Failed_to_store username (ClientError code))])
  | (inl e, s1) =>
      (inl (HTTPException 503 "Database connection error"), s1,
       [storing; PutItem item;
        WebLog ERROR (Connection_error_storing username e)])
  end.
Proof.
  unfold put_hello, store_birthday, wbind, wlog, wret, birthday_item. simpl.
  destruct (put_item table _ s) as [[e | u] s1]; [| reflexivity].
  destruct e; reflexivity.
Qed.

(** X6.  [PUT /hello/<username>] answers 204 only when the store accepted
    the item; a [ClientError] of the store becomes the status 500, every
    other exception the status 503, a missing body the status 422 before any
    call on the store; no exception of the store leaves the handler as it
    is. *)
Theorem put_hello_answers
    (username : string) (body : option HelloRequest) (s : S) :
  match put_hello table username body s with
  | (inr r, s1, _) =>
      r = Response 204 /\
      exists request,
        body = Some request /\
        put_item table
          (birthday_item username (isoformat (dateOfBirth request))) s
        = (inr tt, s1)
  | (inl (HTTPException status_code _), s1, t) =>
      (status_code = 422 /\ body = None /\ s1 = s /\ t = []) \/
      (exists request e,
          body = Some request /\
          put_item table
            (birthday_item username (isoformat (dateOfBirth request))) s
          = (inl e, s1) /\
          ((exists code, e = ClientError code) /\ status_code = 500 \/
           (forall code, e <> ClientError code) /\ status_code = 503))
  | (inl (Unhandled _), _, _) => False
  end.
Proof.
  destruct body as [request |].
  - rewrite put_hello_cases. cbv zeta.
    destruct (put_item table _ s) as [[e | []] s1] eqn:E.
    + destruct e; right; exists request; eexists;
        (split; [reflexivity |]); (split; [exact E |]);
        try (right; split; [discriminate | reflexivity]).
      left. split; [eauto | reflexivity].
    + split; [reflexivity |]. exists request. split; [reflexivity | exact E].
  - left. repeat split.
Qed.

(** [get_hello] on a user whose stored birthday is the string [d]. *)
Lemma get_hello_found
    (username d : string) (today : date) (s s1 : S) (item : list (string * json)) :
  get_item table (birthday_key username) s
    = (inr (JObj [("Item", JObj item)]), s1) ->
  assoc "dateOfBirth" item = Some (JStr d) ->
  d <> "" ->
  let t := [WebLog INFO (Getting_birthday username);
            GetItem (birthday_key username);
            WebLog INFO (Found_birthday username (JStr d))] in
  get_hello table username today s =
  match calculate_days_until_birthday d today with
  | inl e => (inl (Unhandled e), s1, t)
  | inr n => (inr (message (greeting username n)), s1, t)
  end.
Proof.
  intros Hget Hd Hne t.
  assert (Hfalsy : String.eqb d "" = false) by now apply String.eqb_neq.
  unfold get_hello, get_birthday, wbind, wlog, wret, wraise, birthday_key in *.
  simpl. rewrite Hget. unfold read_date_of_birth. simpl. rewrite Hd. simpl.
  rewrite Hfalsy. simpl.
  destruct (calculate_days_until_birthday d today) as [e | n];
    [reflexivity |].
  unfold greeting. destruct (n =? 0); reflexivity.
Qed.

Lemma isoformat_not_empty (a : date) : isoformat a <> "".
Proof. unfold isoformat. simpl. discriminate. Qed.

(** X7.  On a table that gives back what was put: after a [PUT] of a birth
    date that is not a February 29 answered 204, a [GET] for the same user
    on the day [today] answers the greeting for the number of days the
    helper computes, which is zero (and the greeting a happy birthday)
    exactly on the anniversary; it never answers that the user is not
    found. *)
Theorem birthday_round_trip
    (username : string) (birth today : date) (s s1 : S)
    (events : list web_event) :
  reads_its_writes table ->
  valid_date birth ->
  valid_date today ->
  year today < MAXYEAR ->
  ~ (month birth = 2 /\ day birth = 29) ->
  put_hello table username (Some {| dateOfBirth := birth |}) s
    = (inr (Response 204), s1, events) ->
  exists (n : Z) (s2 : S),
    fst (get_hello table username today s1)
      = (inr (message (greeting username n)), s2) /\
    calculate_days_until_birthday (isoformat birth) today = inr n /\
    0 <= n <= 365 /\
    (n = 0 <-> month birth = month today /\ day birth = day today) /\
    greeting username n <> "user not found".
Proof.
  intros Hlaw Hbirth Htoday Hmax Hfeb Hput.
  rewrite put_hello_cases in Hput. cbv zeta in Hput. simpl in Hput.
  destruct (put_item table _ s) as [[e | []] s1'] eqn:Eput;
    [destruct e; discriminate |].
  injection Hput as -> _.
  destruct (Hlaw _ _ _ _ Eput) as (s2 & Hget).
  destruct (days_until_birthday_parsed (isoformat birth) birth today
              (strptime_ymd_isoformat _ Hbirth) Htoday Hmax Hfeb)
    as (n & Hn & _ & _ & _ & _ & Hzero).
  destruct (days_until_birthday_range birth today Hbirth Htoday Hmax Hfeb)
    as (n' & Hn' & Hrange).
  rewrite Hn in Hn'. injection Hn' as <-.
  exists n, s2.
  rewrite (get_hello_found username (isoformat birth) today s1 s2 _ Hget
             eq_refl (isoformat_not_empty birth)).
  rewrite Hn. split; [reflexivity |]. split; [reflexivity |].
  split; [exact Hrange |]. split; [exact Hzero |].
  unfold greeting. destruct (n =? 0); simpl; discriminate.
Qed.

(** X8.  On a table that gives back what was put: after a [PUT] of a
    February 29 answered 204, a [GET] for the same user raises the
    [ValueError] of the helper, unhandled, on every day of a year that is
    not a leap year and on every day after the February 29 of a leap
    year. *)
Theorem leap_day_user_gets_an_error
    (username : string) (birth today : date) (s s1 : S)
    (events : list web_event) :
  reads_its_writes table ->
  valid_date birth ->
  month birth = 2 -> day birth = 29 ->
  valid_date today ->
  is_leap (year today) = false \/
  date_ltb (mkdate (year today) 2 29) today = true ->
  put_hello table username (Some {| dateOfBirth := birth |}) s
    = (inr (Response 204), s1, events) ->
  exists s2 : S,
    fst (get_hello table username today s1)
      = (inl (Unhandled (ValueError "day is out of range for month")), s2).
Proof.
  intros Hlaw Hbirth Hm Hd Htoday Hcase Hput.
  rewrite put_hello_cases in Hput. cbv zeta in Hput. simpl in Hput.
  destruct (put_item table _ s) as [[e | []] s1'] eqn:Eput;
    [destruct e; discriminate |].
  injection Hput as -> _.
  destruct (Hlaw _ _ _ _ Eput) as (s2 & Hget).
  exists s2.
  rewrite (get_hello_found username (isoformat birth) today s1 s2 _ Hget
             eq_refl (isoformat_not_empty birth)).
  rewrite (leap_day_raises birth today Hbirth Hm Hd Htoday Hcase).
  reflexivity.
Qed.

(** X9.  When the store fails on [get_item], whatever the exception,
    [GET /hello/<username>] raises nothing: it answers that the user is not
    found, as it does for a user the table does not hold. *)
Theorem get_hello_hides_store_failures
    (username : string) (today : date) (s : S) :
  (forall e s1,
      get_item table (birthday_key username) s = (inl e, s1) ->
      fst (get_hello table username today s)
        = (inr (message "user not found"), s1)) /\
  (forall s1,
      get_item table (birthday_key username) s = (inr (JObj []), s1) ->
      fst (get_hello table username today s)
        = (inr (message "user not found"), s1)).
Proof.
  unfold get_hello, get_birthday, wbind, wlog, wret, birthday_key. simpl.
  split.
  - intros e s1 H. rewrite H. destruct e; reflexivity.
  - intros s1 H. rewrite H. reflexivity.
Qed.

End Handlers.

End WebFacts.

(** ** migrations.py: one table *)

Module MigrationsFacts.
Import Json Store Migrations InMemory.

(** Runs the monadic combinators of a goal. *)
Ltac run :=
  unfold bind, try_except, ret, raise, lift, logger, call; simpl.

Section OneTable.

Context {S : Type}.
Variable boto3 : client S.

(** What [table_exists] does, by the answer of the store. *)
Lemma table_exists_cases (name : json) (s : S) :
  table_exists boto3 name s =
  match Table_load boto3 name s with
  | (inr _, s1) => (inr true, s1, [Call (CallLoad name)])
  | (inl (ClientError code), s1) =>
      if String.eqb code "ResourceNotFoundException"
      then (inr false, s1, [Call (CallLoad name)])
      else (inr false, s1,
            [Call (CallLoad name);
             Log ERROR (Error_checking_exists name (ClientError code))])
  | (inl e, s1) => (inl e, s1, [Call (CallLoad name)])
  end.
Proof.
  unfold table_exists. run.
  destruct (Table_load boto3 name s) as [[e | u] s1]; [| reflexivity].
  destruct e; try reflexivity.
  destruct (String.eqb code "ResourceNotFoundException"); reflexivity.
Qed.

(** The existence check calls the store once, to load the table. *)
Lemma table_exists_calls (name : json) (s s1 : S) r t :
  table_exists boto3 name s = (r, s1, t) ->
  calls_of t = [CallLoad name] /\ s1 = snd (Table_load boto3 name s).
Proof.
  rewrite table_exists_cases.
  destruct (Table_load boto3 name s) as [[e | u] s0]; simpl.
  - destruct e;
      try (intros H; injection H as <- <- <-; split; reflexivity).
    destruct (String.eqb code "ResourceNotFoundException");
      intros H; injection H as <- <- <-; split; reflexivity.
  - intros H; injection H as <- <- <-; split; reflexivity.
Qed.

(** C6, as the code has it.  The existence check returns [True] exactly when
    loading the table succeeds; [ResourceNotFoundException] gives [False]
    and raises nothing; every other [ClientError] (a denied access, for one)
    is logged and gives [False] as well; an exception that is not a
    [ClientError] (a connection that fails) is raised to the caller. *)
Theorem table_exists_answers (name : json) (s : S) :
  (fst (fst (table_exists boto3 name s)) = inr true <->
   fst (Table_load boto3 name s) = inr tt) /\
  (forall code,
      fst (Table_load boto3 name s) = inl (ClientError code) ->
      fst (fst (table_exists boto3 name s)) = inr false /\
      (code <> "ResourceNotFoundException" ->
       In (Log ERROR (Error_checking_exists name (ClientError code)))
          (snd (table_exists boto3 name s)))) /\
  (forall e,
      fst (Table_load boto3 name s) = inl e ->
      (forall code, e <> ClientError code) ->
      fst (fst (table_exists boto3 name s)) = inl e).
Proof.
  rewrite table_exists_cases.
  destruct (Table_load boto3 name s) as [[e | []] s1]; simpl.
  - split; [| split].
    + destruct e; simpl; try (split; discriminate).
      destruct (String.eqb code _); simpl; split; discriminate.
    + intros code H. injection H as ->.
      destruct (String.eqb_spec code "ResourceNotFoundException"); simpl.
      * split; [reflexivity | contradiction].
      * split; [reflexivity | intros _; right; left; reflexivity].
    + intros e' H Hne. injection H as ->.
      destruct e'; try reflexivity. now contradiction (Hne code).
  - split; [| split].
    + split; reflexivity.
    + discriminate.
    + discriminate.
Qed.

Lemma calls_of_app (a b : list event) :
  calls_of (a ++ b) = calls_of a ++ calls_of b.
Proof.
  induction a as [| [c | l m] a IH]; simpl; [reflexivity | f_equal; exact IH | exact IH].
Qed.

(** C3, as the code has it.  When the store answers the creation by
    [ResourceInUseException], [create_table] logs a warning and returns
    [True] at once: the outcome is not a failure, and no readiness wait is
    made (the calls on the store are the load and the creation). *)
Theorem race_lost_is_success_without_wait
    (d name : json) (params : create_params) (s s1 s2 : S) (t1 : list event) :
  getitem d "name" = inr name ->
  table_exists boto3 name s = (inr false, s1, t1) ->
  prepare_create_params d name = inr params ->
  client_create_table boto3 params s1
    = (inl (ClientError "ResourceInUseException"), s2) ->
  create_table boto3 d s
    = (inr true, s2,
       t1 ++ creation_events name params ++
       [Log WARNING (Being_created_by_another_process name)]) /\
  calls_of (snd (create_table boto3 d s))
    = [CallLoad name; CallCreate params].
Proof.
  intros Hname Hex Hpar Hcreate.
  assert (E : create_table boto3 d s
    = (inr true, s2,
       t1 ++ creation_events name params ++
       [Log WARNING (Being_created_by_another_process name)])).
  { unfold create_table. run. rewrite Hname, Hex. simpl.
    rewrite Hpar. simpl. rewrite Hcreate. reflexivity. }
  split; [exact E |]. rewrite E. simpl.
  apply table_exists_calls in Hex. destruct Hex as [Hcalls _].
  rewrite calls_of_app, Hcalls. reflexivity.
Qed.

(** C7.  When the readiness wait of a table gives up with a [WaiterError],
    [create_table] returns: it logs the error with that cause and its
    outcome is [False]; the loop of [run_migrations] then goes on with the
    next descriptors, from the state the wait left and with the count of
    successes unchanged. *)
Theorem wait_timeout_fails_the_table_only
    (d name : json) (params : create_params) (reason : string)
    (s s1 s2 s3 : S) (t1 : list event)
    (rest : list json) (success_count : nat) :
  getitem d "name" = inr name ->
  table_exists boto3 name s = (inr false, s1, t1) ->
  prepare_create_params d name = inr params ->
  client_create_table boto3 params s1 = (inr tt, s2) ->
  waiter_wait boto3 name s2 = (inl (WaiterError reason), s3) ->
  let t := t1 ++ creation_events name params ++
           [Call (CallWait name);
            Log ERROR (Unexpected_error_creating name (WaiterError reason))] in
  create_table boto3 d s = (inr false, s3, t) /\
  create_each boto3 (d :: rest) success_count s
    = (let '(r, s4, t') := create_each boto3 rest success_count s3 in
       (r, s4, t ++ t')).
Proof.
  intros Hname Hex Hpar Hcreate Hwait t.
  assert (E : create_table boto3 d s = (inr false, s3, t)).
  { unfold create_table. run. rewrite Hname, Hex. simpl.
    rewrite Hpar. simpl. rewrite Hcreate, Hwait. reflexivity. }
  split; [exact E |].
  simpl. unfold bind at 1. rewrite E.
  destruct (create_each boto3 rest success_count s3) as [[r s4] t'].
  reflexivity.
Qed.

(** C10.  [list_tables] raises nothing and returns a list; when the store
    raises, whatever the exception, the list is empty, as it is for a store
    that answers with no table; in both cases [main --list] logs that no
    tables were found and the process ends with status 0. *)
Theorem list_tables_never_raises (s : S) :
  (exists names s1 t, list_tables boto3 s = (inr names, s1, t)) /\
  (forall e s1,
      client_list_tables boto3 s = (inl e, s1) ->
      list_tables boto3 s
        = (inr [], s1, [Call CallList; Log ERROR (Failed_to_list e)])) /\
  (forall last s1,
      client_list_tables boto3 s
        = (inr {| TableNames := Some [];
                  LastEvaluatedTableName := last |}, s1) ->
      list_tables boto3 s = (inr [], s1, [Call CallList])) /\
  (forall config s0,
      connect boto3 s0 = (inr tt, s) ->
      (exists e s1, client_list_tables boto3 s = (inl e, s1)) \/
      (exists last s1,
          client_list_tables boto3 s
          = (inr {| TableNames := Some [];
                    LastEvaluatedTableName := last |}, s1)) ->
      fst (fst (main boto3 true config s0)) = inr 0 /\
      In (Log INFO No_tables_found) (snd (main boto3 true config s0))).
Proof.
  assert (Hraised : forall e s1,
      client_list_tables boto3 s = (inl e, s1) ->
      list_tables boto3 s
        = (inr [], s1, [Call CallList; Log ERROR (Failed_to_list e)])).
  { intros e s1 H. unfold list_tables. run. rewrite H. reflexivity. }
  assert (Hempty : forall last s1,
      client_list_tables boto3 s
        = (inr {| TableNames := Some [];
                  LastEvaluatedTableName := last |}, s1) ->
      list_tables boto3 s = (inr [], s1, [Call CallList])).
  { intros last s1 H. unfold list_tables. run. rewrite H. reflexivity. }
  split; [| split; [exact Hraised | split; [exact Hempty |]]].
  - unfold list_tables. run.
    destruct (client_list_tables boto3 s) as [[e | response] s1]; eauto.
  - intros config s0 Hconnect Hcase.
    unfold main, new_migrator, try_except, bind.
    rewrite Hconnect. cbv beta iota.
    destruct Hcase as [(e & s1 & H) | (last & s1 & H)].
    + rewrite (Hraised _ _ H). split; [reflexivity |].
      simpl. right. right. left. reflexivity.
    + rewrite (Hempty _ _ H). split; [reflexivity |].
      simpl. right. left. reflexivity.
Qed.

End OneTable.

(** ** migrations.py: the run over a configuration *)

Section Run.

Context {S : Type}.
Variable boto3 : client S.

Lemma chars_length (s : string) : List.length (chars s) = String.length s.
Proof. induction s as [| c s IH]; simpl; [reflexivity | f_equal; exact IH]. Qed.

(** [len] counts what [iter] visits. *)
Lemma len_iter (v : json) (items : list json) :
  iter v = inr items -> len v = inr (List.length items).
Proof.
  destruct v; simpl; try discriminate; intros H; injection H as <-.
  - now rewrite chars_length.
  - reflexivity.
  - now rewrite length_map.
Qed.

Lemma falsy_iter (v : json) (items : list json) :
  iter v = inr items -> falsy v = match items with [] => true | _ => false end.
Proof.
  destruct v; simpl; try discriminate; intros H; injection H as <-.
  - destruct s; reflexivity.
  - reflexivity.
  - destruct pairs; reflexivity.
Qed.

Lemma create_each_app (a b : list json) (c : nat) (s : S) :
  create_each boto3 (a ++ b) c s =
  match create_each boto3 a c s with
  | (inl e, s1, t1) => (inl e, s1, t1)
  | (inr k, s1, t1) =>
      let '(r, s2, t2) := create_each boto3 b k s1 in (r, s2, t1 ++ t2)
  end.
Proof.
  revert c s. induction a as [| d a IH]; intros c s; simpl.
  - unfold ret. destruct (create_each boto3 b c s) as [[r s2] t2]. reflexivity.
  - unfold bind.
    destruct (create_table boto3 d s) as [[[e | created] s1] t1];
      [reflexivity |].
    rewrite IH.
    destruct (create_each boto3 a _ s1) as [[[e | k] s2] t2]; [reflexivity |].
    destruct (create_each boto3 b k s2) as [[r s3] t3].
    now rewrite app_assoc.
Qed.

Lemma outcomes_app (a b : list json) (s s1 : S) (t1 : list event) :
  all_succeed boto3 a s = Some (s1, t1) ->
  outcomes boto3 (a ++ b) s = map succeeded a ++ outcomes boto3 b s1.
Proof.
  revert s s1 t1. induction a as [| d a IH]; intros s s1 t1; simpl.
  - intros H. now injection H as <- <-.
  - destruct (create_table boto3 d s) as [[[e | [|]] s2] t2]; try discriminate.
    destruct (all_succeed boto3 a s2) as [[s3 t3] |] eqn:E; [| discriminate].
    intros H. injection H as <- <-. f_equal. exact (IH _ _ _ E).
Qed.

(** Descriptors that all succeed are all counted. *)
Lemma all_succeed_create_each (ds : list json) (c : nat) (s s1 : S) t1 :
  all_succeed boto3 ds s = Some (s1, t1) ->
  create_each boto3 ds c s = (inr (c + List.length ds)%nat, s1, t1).
Proof.
  revert c s s1 t1. induction ds as [| d ds IH]; intros c s s1 t1; simpl.
  - intros H. injection H as <- <-. unfold ret. now rewrite Nat.add_0_r.
  - unfold bind.
    destruct (create_table boto3 d s) as [[[e | [|]] s2] t2]; try discriminate.
    destruct (all_succeed boto3 ds s2) as [[s3 t3] |] eqn:E; [| discriminate].
    intros H. injection H as <- <-. rewrite (IH _ _ _ _ E).
    replace (c + 1 + List.length ds)%nat with (c + Datatypes.S (List.length ds))%nat
      by lia.
    reflexivity.
Qed.

(** The count of the loop against the outcomes: the loop either raises, and
    then some outcome is that exception, or returns a count that reaches the
    number of descriptors exactly when every outcome is a success. *)
Lemma create_each_counts (ds : list json) (c : nat) (s : S) :
  match create_each boto3 ds c s with
  | (inl e, _, _) => In (inl e) (outcomes boto3 ds s)
  | (inr k, _, _) =>
      (k <= c + List.length ds)%nat /\
      ~ (exists e, In (inl e) (outcomes boto3 ds s)) /\
      (k = (c + List.length ds)%nat <->
       Forall (eq (inr true)) (outcomes boto3 ds s))
  end.
Proof.
  revert c s. induction ds as [| d ds IH]; intros c s; simpl.
  - split; [lia |]. split; [intros [e []] |]. split; [constructor | lia].
  - unfold bind.
    destruct (create_table boto3 d s) as [[[e | created] s1] t1];
      [left; reflexivity |].
    specialize (IH (if created then (c + 1)%nat else c) s1).
    destruct (create_each boto3 ds _ s1) as [[[e | k] s2] t2].
    + right. exact IH.
    + destruct IH as (Hle & Hno & Hiff). split; [| split].
      * destruct created; lia.
      * intros [e [He | He]]; [discriminate | apply Hno; eauto].
      * split.
        -- intros Hk. destruct created; [| lia].
           constructor; [reflexivity |]. apply Hiff. lia.
        -- intros Hall. inversion Hall as [| x l Hx Hl]; subst.
           injection Hx as <-. apply Hiff in Hl. lia.
Qed.

(** [run_migrations] on a configuration that loads, by the result of the
    loop. *)
Lemma run_migrations_loaded
    (config_file : string) (config tables : json) (ds : list json) (s : S) :
  read_json boto3 config_file = inr config ->
  get_default config "tables" (JArr []) = inr tables ->
  iter tables = inr ds ->
  let n := List.length ds in
  let loaded := Log INFO (Loaded_table_configurations n config_file) in
  run_migrations boto3 config_file s =
  match ds with
  | [] => (inr true, s, [loaded; Log WARNING No_table_configurations])
  | _ :: _ =>
      match create_each boto3 ds 0%nat s with
      | (inr k, s1, t) =>
          (inr (Nat.eqb k n), s1,
           loaded :: t ++ [Log INFO (Migration_completed k n)])
      | (inl e, s1, t) =>
          (inr false, s1, loaded :: t ++ [Log ERROR (Migration_failed e)])
      end
  end.
Proof.
  intros Hread Hget Hiter n loaded.
  pose proof (len_iter _ _ Hiter) as Hlen.
  pose proof (falsy_iter _ _ Hiter) as Hfalsy.
  unfold run_migrations, load_table_config. rewrite Hread. run.
  rewrite Hget. simpl. rewrite Hlen. simpl. rewrite Hfalsy.
  destruct ds as [| d ds']; [reflexivity |].
  simpl. rewrite Hiter. simpl.
  change (bind (create_table boto3 d) _ s)
    with (create_each boto3 (d :: ds') 0%nat s).
  destruct (create_each boto3 (d :: ds') 0%nat s) as [[[e | k] s1] t];
    [reflexivity |].
  simpl. rewrite Hlen. reflexivity.
Qed.

(** The exit status of a migration run whose clients could be built. *)
Lemma main_exit_status (config_file : string) (s s1 : S) :
  connect boto3 s = (inr tt, s1) ->
  main boto3 false config_file s =
  match run_migrations boto3 config_file s1 with
  | (inr success, s2, t) => (inr (if success then 0 else 1), s2, t)
  | (inl e, s2, t) => (inr 1, s2, t ++ [Log ERROR (Migration_script_failed e)])
  end.
Proof.
  intros Hconnect. unfold main, new_migrator. run. rewrite Hconnect.
  destruct (run_migrations boto3 config_file s1) as [[[e | b] s2] t].
  - reflexivity.
  - simpl. now rewrite app_nil_r.
Qed.

(** C5.  For every run of the migration on a configuration that loads, the
    exit status of the process is 0 exactly when the outcome of every
    descriptor is a success; when some descriptor failed it is not 0 (it is
    then 1). *)
Theorem exit_status_zero_iff_all_succeeded
    (config_file : string) (config tables : json) (ds : list json)
    (s s1 : S) :
  read_json boto3 config_file = inr config ->
  get_default config "tables" (JArr []) = inr tables ->
  iter tables = inr ds ->
  connect boto3 s = (inr tt, s1) ->
  exists status s2 t,
    main boto3 false config_file s = (inr status, s2, t) /\
    (status = 0 <-> Forall (eq (inr true)) (outcomes boto3 ds s1)) /\
    (In (inr false) (outcomes boto3 ds s1) -> status <> 0) /\
    (status = 0 \/ status = 1).
Proof.
  intros Hread Hget Hiter Hconnect.
  rewrite (main_exit_status _ _ _ Hconnect).
  rewrite (run_migrations_loaded _ _ _ _ s1 Hread Hget Hiter).
  assert (Hfail : forall os : list (exn + bool),
             In (inr false) os -> ~ Forall (eq (inr true)) os).
  { intros os Hin Hall. rewrite Forall_forall in Hall.
    specialize (Hall _ Hin). discriminate. }
  destruct ds as [| d ds'].
  - exists 0, s1. eexists. split; [reflexivity |]. simpl.
    split; [split; [constructor | reflexivity] |].
    split; [intros [] | left; reflexivity].
  - pose proof (create_each_counts (d :: ds') 0%nat s1) as Hcount.
    destruct (create_each boto3 (d :: ds') 0%nat s1) as [[[e | k] s2] t].
    + exists 1, s2. eexists. split; [reflexivity |].
      split; [| split; [discriminate | right; reflexivity]].
      split; [discriminate |]. intros Hall. rewrite Forall_forall in Hall.
      specialize (Hall _ Hcount). discriminate.
    + destruct Hcount as (Hle & _ & Hiff). simpl in Hle, Hiff.
      destruct (Nat.eqb_spec k (List.length (d :: ds'))) as [Heq | Hne].
      * exists 0, s2. eexists. split; [reflexivity |].
        assert (Hall : Forall (eq (inr true)) (outcomes boto3 (d :: ds') s1))
          by (apply Hiff; exact Heq).
        split; [split; [intros _; exact Hall | reflexivity] |].
        split; [| left; reflexivity].
        intros Hin. now apply Hfail in Hin.
      * exists 1, s2. eexists. split; [reflexivity |].
        split; [| split; [discriminate | right; reflexivity]].
        split; [discriminate |]. intros Hall. apply Hiff in Hall.
        simpl in Hne. contradiction.
Qed.

(** The events of the descriptor whose creation the store refuses. *)
Lemma create_table_refused
    (d name : json) (params : create_params) (e : exn)
    (s sb s1 : S) (tb : list event) :
  getitem d "name" = inr name ->
  table_exists boto3 name s = (inr false, sb, tb) ->
  prepare_create_params d name = inr params ->
  client_create_table boto3 params sb = (inl e, s1) ->
  e <> ClientError "ResourceInUseException" ->
  create_table boto3 d s
    = (inr false, s1,
       tb ++ creation_events name params ++ [Log ERROR (refusal name e)]).
Proof.
  intros Hname Hex Hpar Hcreate Hne.
  unfold create_table. run. rewrite Hname, Hex. simpl.
  rewrite Hpar. simpl. rewrite Hcreate.
  destruct e; try reflexivity.
  destruct (String.eqb_spec code "ResourceInUseException") as [-> | _];
    [contradiction | reflexivity].
Qed.

(** C1.  In a configuration of N descriptors where the store refuses the
    creation of exactly one table, with an error that is not
    [ResourceInUseException], and every other descriptor succeeds: the run
    goes through all the N descriptors (the events of those after the failed
    one are part of it), exactly one outcome is a failure, N-1 successes are
    counted, and the exit status is 1. *)
Theorem one_refused_creation_does_not_stop_the_run
    (config_file : string) (config tables : json)
    (pre post : list json) (d name : json) (params : create_params) (e : exn)
    (s0 s sa sb s1 s2 : S) (ta tb tc : list event) :
  read_json boto3 config_file = inr config ->
  get_default config "tables" (JArr []) = inr tables ->
  iter tables = inr (pre ++ d :: post) ->
  connect boto3 s0 = (inr tt, s) ->
  all_succeed boto3 pre s = Some (sa, ta) ->
  getitem d "name" = inr name ->
  table_exists boto3 name sa = (inr false, sb, tb) ->
  prepare_create_params d name = inr params ->
  client_create_table boto3 params sb = (inl e, s1) ->
  e <> ClientError "ResourceInUseException" ->
  all_succeed boto3 post s1 = Some (s2, tc) ->
  let n := List.length (pre ++ d :: post) in
  let td := tb ++ creation_events name params ++
            [Log ERROR (refusal name e)] in
  outcomes boto3 (pre ++ d :: post) s
    = map succeeded pre ++ inr false :: map succeeded post /\
  create_table boto3 d sa = (inr false, s1, td) /\
  main boto3 false config_file s0
    = (inr 1, s2,
       Log INFO (Loaded_table_configurations n config_file)
       :: (ta ++ td ++ tc)
       ++ [Log INFO (Migration_completed (n - 1) n)]).
Proof.
  intros Hread Hget Hiter Hconnect Hpre Hname Hex Hpar Hcreate Hne Hpost n td.
  pose proof (create_table_refused _ _ _ _ _ _ _ _ Hname Hex Hpar Hcreate Hne)
    as Hd.
  fold td in Hd.
  split; [| split; [exact Hd |]].
  - rewrite (outcomes_app _ _ _ _ _ Hpre). f_equal. simpl. rewrite Hd.
    f_equal. rewrite <- (app_nil_r post) at 1.
    rewrite (outcomes_app _ _ _ _ _ Hpost). simpl. now rewrite app_nil_r.
  - rewrite (main_exit_status _ _ _ Hconnect).
    rewrite (run_migrations_loaded _ _ _ _ s Hread Hget Hiter).
    assert (Hloop : create_each boto3 (pre ++ d :: post) 0%nat s
                    = (inr (n - 1)%nat, s2, ta ++ td ++ tc)).
    { rewrite create_each_app, (all_succeed_create_each _ 0%nat _ _ _ Hpre).
      simpl. unfold bind at 1. rewrite Hd.
      rewrite (all_succeed_create_each _ _ _ _ _ Hpost).
      unfold n. rewrite length_app. simpl.
      replace (List.length pre + Datatypes.S (List.length post) - 1)%nat
        with (List.length pre + List.length post)%nat by lia.
      reflexivity. }
    destruct (pre ++ d :: post) as [| d0 ds0] eqn:Eds;
      [destruct pre; discriminate |].
    rewrite Hloop.
    assert (Hn : (1 <= n)%nat) by (unfold n; simpl; lia).
    fold n.
    destruct (Nat.eqb_spec (n - 1) n) as [Heq | _]; [lia | reflexivity].
Qed.



(** *** A second run *)

Section Durable.

Hypothesis store_durable : durable boto3.

(** A table that exists is skipped: one load, no creation. *)
Lemma create_table_skips (d name : json) (s : S) :
  getitem d "name" = inr name ->
  present boto3 s name ->
  create_table boto3 d s
    = (inr true, snd (Table_load boto3 name s),
       [Call (CallLoad name); Log INFO (Already_exists_skipping name)]).
Proof.
  intros Hname Hpresent. unfold present in Hpresent.
  unfold create_table. unfold bind at 1, lift. rewrite Hname.
  unfold bind at 1. rewrite table_exists_cases.
  destruct (Table_load boto3 name s) as [r sL]. simpl in *. subst r.
  reflexivity.
Qed.

(** Takes the state out of an equation between results. *)
Ltac same_state H := inversion H; subst; clear H.

(** Whatever [create_table] does, the tables that exist stay. *)
Lemma create_table_keeps (n d : json) (s s1 : S) r t :
  present boto3 s n ->
  create_table boto3 d s = (r, s1, t) ->
  present boto3 s1 n.
Proof.
  intros Hn. unfold create_table. unfold bind at 1, lift.
  destruct (getitem d "name") as [e | name]; [intros H; now same_state H |].
  unfold bind at 1. rewrite table_exists_cases.
  pose proof (load_keeps boto3 store_durable n name s Hn) as HL.
  destruct (Table_load boto3 name s) as [rL sL]. simpl in HL.
  assert (Hcreate : forall s2 r2 t2,
    try_except
      (bind (lift (prepare_create_params d name)) (fun create_params =>
       bind (logger INFO (Creating_table name)) (fun _ =>
       bind (call (CallCreate create_params)
               (client_create_table boto3 create_params)) (fun _ =>
       bind (call (CallWait name) (waiter_wait boto3 name)) (fun _ =>
       bind (logger INFO (Successfully_created name)) (fun _ =>
       ret true))))))
      (fun e =>
         match e with
         | ClientError error_code =>
             if String.eqb error_code "ResourceInUseException" then
               bind (logger WARNING (Being_created_by_another_process name))
                    (fun _ => ret true)
             else
               bind (logger ERROR (Failed_to_create name e))
                    (fun _ => ret false)
         | _ =>
             bind (logger ERROR (Unexpected_error_creating name e))
                  (fun _ => ret false)
         end) sL = (r2, s2, t2) ->
    present boto3 s2 n).
  { intros s2 r2 t2. run.
    destruct (prepare_create_params d name) as [e | params]; simpl.
    - destruct e; try (intros H; now same_state H).
      destruct (String.eqb code _); intros H; now same_state H.
    - pose proof (create_keeps boto3 store_durable n params sL HL) as HC.
      destruct (client_create_table boto3 params sL) as [[e | u] sC];
        simpl in HC.
      + destruct e; try (intros H; now same_state H).
        destruct (String.eqb code _); intros H; now same_state H.
      + pose proof (wait_keeps boto3 store_durable n name sC HC) as HW.
        destruct (waiter_wait boto3 name sC) as [[e | u'] sW]; simpl in HW.
        * destruct e; try (intros H; now same_state H).
          destruct (String.eqb code _); intros H; now same_state H.
        * intros H; now same_state H. }
  destruct rL as [e | u].
  - destruct e; try (intros H; now same_state H).
    destruct (String.eqb code "ResourceNotFoundException").
    + destruct (try_except _ _ sL) as [[r2 s2] t2].
      intros H. same_state H. exact (Hcreate _ _ _ eq_refl).
    + destruct (try_except _ _ sL) as [[r2 s2] t2].
      intros H. same_state H. exact (Hcreate _ _ _ eq_refl).
  - run. intros H. now same_state H.
Qed.

(** The conversions raise only what indexing and iterating raise. *)
Lemma getitem_raises (v : json) (k : string) (e : exn) :
  getitem v k = inl e -> forall code, e <> ClientError code.
Proof.
  destruct v; simpl; try (intros H; injection H as <-; discriminate).
  destruct (assoc k pairs); [discriminate |].
  intros H; injection H as <-; discriminate.
Qed.

Lemma iter_raises (v : json) (e : exn) :
  iter v = inl e -> forall code, e <> ClientError code.
Proof.
  destruct v; simpl; try discriminate;
    intros H; injection H as <-; discriminate.
Qed.

Lemma convert_raises (from1 to1 from2 to2 : string) (items : list json)
    (e : exn) :
  convert from1 to1 from2 to2 items = inl e ->
  forall code, e <> ClientError code.
Proof.
  induction items as [| item rest IH]; simpl; [discriminate |].
  destruct (getitem item from1) as [e1 | a] eqn:E1.
  { intros H; injection H as <-. exact (getitem_raises _ _ _ E1). }
  destruct (getitem item from2) as [e2 | b] eqn:E2.
  { intros H; injection H as <-. exact (getitem_raises _ _ _ E2). }
  destruct (convert from1 to1 from2 to2 rest) as [e3 | tl];
    [| discriminate].
  intros H; injection H as <-. now apply IH.
Qed.

Lemma prepare_create_params_raises (d name : json) (e : exn) :
  prepare_create_params d name = inl e ->
  forall code, e <> ClientError code.
Proof.
  unfold prepare_create_params, bind_exn.
  destruct (getitem d "key_schema") as [e1 | ks] eqn:E1.
  { intros H; injection H as <-. exact (getitem_raises _ _ _ E1). }
  destruct (iter ks) as [e2 | keys] eqn:E2.
  { intros H; injection H as <-. exact (iter_raises _ _ E2). }
  destruct (convert _ _ _ _ keys) as [e3 | key_schema] eqn:E3.
  { intros H; injection H as <-. exact (convert_raises _ _ _ _ _ _ E3). }
  destruct (getitem d "attributes") as [e4 | ats] eqn:E4.
  { intros H; injection H as <-. exact (getitem_raises _ _ _ E4). }
  destruct (iter ats) as [e5 | attrs] eqn:E5.
  { intros H; injection H as <-. exact (iter_raises _ _ E5). }
  destruct (convert _ _ _ _ attrs) as [e6 | defs] eqn:E6.
  { intros H; injection H as <-. exact (convert_raises _ _ _ _ _ _ E6). }
  destruct (getitem d "billing_mode") as [e7 | bm] eqn:E7.
  { intros H; injection H as <-. exact (getitem_raises _ _ _ E7). }
  discriminate.
Qed.

Lemma prepare_create_params_name (d name : json) (params : create_params) :
  prepare_create_params d name = inr params -> TableName params = name.
Proof.
  unfold prepare_create_params, bind_exn.
  destruct (getitem d "key_schema") as [e1 | ks]; [discriminate |].
  destruct (iter ks) as [e2 | keys]; [discriminate |].
  destruct (convert _ _ _ _ keys) as [e3 | key_schema]; [discriminate |].
  destruct (getitem d "attributes") as [e4 | ats]; [discriminate |].
  destruct (iter ats) as [e5 | attrs]; [discriminate |].
  destruct (convert _ _ _ _ attrs) as [e6 | defs]; [discriminate |].
  destruct (getitem d "billing_mode") as [e7 | bm]; [discriminate |].
  intros H; injection H as <-. reflexivity.
Qed.

(** After [create_table] returned [True] the table is there. *)
Lemma create_table_true_present (d : json) (s s1 : S) t :
  create_table boto3 d s = (inr true, s1, t) ->
  exists name, getitem d "name" = inr name /\ present boto3 s1 name.
Proof.
  unfold create_table. unfold bind at 1, lift.
  destruct (getitem d "name") as [e | name]; [discriminate |].
  intros H. exists name. split; [reflexivity |]. revert H.
  unfold bind at 1. rewrite table_exists_cases.
  destruct (Table_load boto3 name s) as [rL sL] eqn:EL.
  assert (Hcreate : forall s2 t2,
    try_except
      (bind (lift (prepare_create_params d name)) (fun create_params =>
       bind (logger INFO (Creating_table name)) (fun _ =>
       bind (call (CallCreate create_params)
               (client_create_table boto3 create_params)) (fun _ =>
       bind (call (CallWait name) (waiter_wait boto3 name)) (fun _ =>
       bind (logger INFO (Successfully_created name)) (fun _ =>
       ret true))))))
      (fun e =>
         match e with
         | ClientError error_code =>
             if String.eqb error_code "ResourceInUseException" then
               bind (logger WARNING (Being_created_by_another_process name))
                    (fun _ => ret true)
             else
               bind (logger ERROR (Failed_to_create name e))
                    (fun _ => ret false)
         | _ =>
             bind (logger ERROR (Unexpected_error_creating name e))
                  (fun _ => ret false)
         end) sL = (inr true, s2, t2) ->
    present boto3 s2 name).
  { intros s2 t2. run.
    destruct (prepare_create_params d name) as [e | params] eqn:EP; simpl.
    - pose proof (prepare_create_params_raises _ _ _ EP) as Hne.
      destruct e; try discriminate. now contradiction (Hne code).
    - apply prepare_create_params_name in EP.
      pose proof (create_shows boto3 store_durable params sL) as HS.
      rewrite EP in HS.
      destruct (client_create_table boto3 params sL) as [[e | []] sC];
        simpl in HS.
      + destruct e; try discriminate.
        destruct (String.eqb_spec code "ResourceInUseException");
          [| discriminate].
        subst code. intros H; same_state H. apply HS. now right.
      + assert (HC : present boto3 sC name) by (apply HS; now left).
        pose proof (wait_keeps boto3 store_durable name name sC HC) as HW.
        destruct (waiter_wait boto3 name sC) as [[e | u'] sW]; simpl in HW.
        * destruct e; try discriminate.
          destruct (String.eqb code _); [| discriminate].
          intros H; now same_state H.
        * intros H; now same_state H. }
  destruct rL as [e | []].
  - destruct e; try discriminate.
    destruct (String.eqb code "ResourceNotFoundException").
    + destruct (try_except _ _ sL) as [[r2 s2] t2].
      intros H. same_state H. exact (Hcreate _ _ eq_refl).
    + destruct (try_except _ _ sL) as [[r2 s2] t2].
      intros H. same_state H. exact (Hcreate _ _ eq_refl).
  - run. intros H. same_state H.
    pose proof (load_keeps boto3 store_durable name name s) as HK.
    unfold present in HK at 1. rewrite EL in HK. simpl in HK. now apply HK.
Qed.

Lemma create_each_keeps (n : json) (ds : list json) (c : nat) (s s1 : S) r t :
  present boto3 s n ->
  create_each boto3 ds c s = (r, s1, t) ->
  present boto3 s1 n.
Proof.
  revert c s s1 r t. induction ds as [| d ds IH]; intros c s s1 r t Hn; simpl.
  - unfold ret. intros H. now same_state H.
  - unfold bind.
    destruct (create_table boto3 d s) as [[[e | created] s2] t2] eqn:Ed;
      pose proof (create_table_keeps _ _ _ _ _ _ Hn Ed) as Hn2.
    + intros H. now same_state H.
    + destruct (create_each boto3 ds _ s2) as [[r3 s3] t3] eqn:Er.
      intros H. same_state H. exact (IH _ _ _ _ _ Hn2 Er).
Qed.

(** After a loop in which every descriptor succeeded, every table is there. *)
Lemma create_each_all_present (ds : list json) (c : nat) (s s1 : S) t :
  create_each boto3 ds c s = (inr (c + List.length ds)%nat, s1, t) ->
  Forall (named_present boto3 s1) ds.
Proof.
  revert c s s1 t. induction ds as [| d ds IH]; intros c s s1 t; simpl.
  - constructor.
  - unfold bind.
    destruct (create_table boto3 d s) as [[[e | created] s2] t2] eqn:Ed;
      [discriminate |].
    pose proof (create_each_counts ds (if created then (c + 1)%nat else c)
                  s2) as Hcount.
    destruct (create_each boto3 ds _ s2) as [[[e | k] s3] t3] eqn:Er;
      [discriminate |].
    destruct Hcount as (Hle & _ & _).
    intros H. same_state H.
    destruct created; [| lia].
    replace (c + Datatypes.S (List.length ds))%nat
      with (c + 1 + List.length ds)%nat in Er by lia.
    constructor.
    + destruct (create_table_true_present _ _ _ _ Ed) as (name & Hname & Hp).
      exists name. split; [exact Hname |].
      exact (create_each_keeps _ _ _ _ _ _ _ Hp Er).
    + exact (IH _ _ _ _ Er).
Qed.

(** When every table is there, the loop skips every descriptor: it counts
    them all and calls the store only to load each table. *)
Lemma create_each_skips_all (ds : list json) (c : nat) (s : S) :
  Forall (named_present boto3 s) ds ->
  exists s1 t,
    create_each boto3 ds c s = (inr (c + List.length ds)%nat, s1, t) /\
    forallb is_load (calls_of t) = true /\
    List.length (calls_of t) = List.length ds /\
    Forall (skipped_in t) ds.
Proof.
  revert c s. induction ds as [| d ds IH]; intros c s Hall; simpl.
  - exists s, []. unfold ret. rewrite Nat.add_0_r. repeat split. constructor.
  - inversion Hall as [| d' ds' (name & Hname & Hp) Hrest]; subst.
    unfold bind. rewrite (create_table_skips _ _ _ Hname Hp).
    assert (Hrest' : Forall (named_present boto3 (snd (Table_load boto3 name s))) ds).
    { eapply Forall_impl; [| exact Hrest].
      intros d' (name' & Hname' & Hp'). exists name'. split; [exact Hname' |].
      now apply (load_keeps boto3 store_durable). }
    destruct (IH (c + 1)%nat _ Hrest') as (s1 & t & Heach & Hloads & Hlen & Hskip).
    rewrite Heach. exists s1. eexists. split; [| split; [| split]].
    + replace (c + Datatypes.S (List.length ds))%nat
        with (c + 1 + List.length ds)%nat by lia.
      reflexivity.
    + simpl. exact Hloads.
    + simpl. now rewrite Hlen.
    + constructor.
      * exists name. split; [exact Hname |]. right. left. reflexivity.
      * eapply Forall_impl; [| exact Hskip].
        intros d' (name' & Hname' & Hin). exists name'.
        split; [exact Hname' |]. right. right. exact Hin.
Qed.

(** C2.  On a store that forgets no table, after a first run that succeeded
    on a configuration, a second run on the same configuration from the
    state the first one left succeeds too; it logs every table as already
    existing, and its calls on the store are the loads of the existence
    checks, one per descriptor: it creates nothing. *)
Theorem second_run_creates_nothing
    (config_file : string) (config tables : json) (ds : list json)
    (s s1 : S) (t1 : list event) :
  read_json boto3 config_file = inr config ->
  get_default config "tables" (JArr []) = inr tables ->
  iter tables = inr ds ->
  run_migrations boto3 config_file s = (inr true, s1, t1) ->
  exists s2 t2,
    run_migrations boto3 config_file s1 = (inr true, s2, t2) /\
    Forall (skipped_in t2) ds /\
    forallb is_load (calls_of t2) = true /\
    List.length (calls_of t2) = List.length ds.
Proof.
  intros Hread Hget Hiter.
  rewrite (run_migrations_loaded _ _ _ _ s Hread Hget Hiter).
  rewrite (run_migrations_loaded _ _ _ _ s1 Hread Hget Hiter).
  destruct ds as [| d ds'].
  - intros _. exists s1. eexists. split; [reflexivity |].
    split; [constructor | split; reflexivity].
  - destruct (create_each boto3 (d :: ds') 0%nat s) as [[[e | k] s'] t] eqn:E1;
      [discriminate |].
    intros H. injection H as Hk <- _. apply Nat.eqb_eq in Hk. subst k.
    pose proof (create_each_all_present (d :: ds') 0%nat _ _ _ E1) as Hall.
    destruct (create_each_skips_all (d :: ds') 0%nat s' Hall)
      as (s2 & t2 & Heach & Hloads & Hlen & Hskip).
    rewrite Heach. exists s2. eexists. split; [| split; [| split]].
    + simpl. now rewrite Nat.eqb_refl.
    + eapply Forall_impl; [| exact Hskip].
      intros d' (name' & Hname' & Hin). exists name'.
      split; [exact Hname' |]. right. apply in_or_app. now left.
    + simpl. rewrite calls_of_app, forallb_app, Hloads. reflexivity.
    + simpl. rewrite calls_of_app, length_app, Hlen. simpl. lia.
Qed.

End Durable.

End Run.

End MigrationsFacts.

(** ** migrations.py: more on the migrator *)

Module MigrationsExtras.
Import Json Store Migrations MigrationsFacts.

Section Extras.

Context {S : Type}.
Variable boto3 : client S.

(** [create_table], step by step. *)
Lemma create_table_steps (d : json) (s : S) :
  create_table boto3 d s =
  match getitem d "name" with
  | inl e => (inl e, s, [])
  | inr name =>
      match table_exists boto3 name s with
      | (inl e, s1, t1) => (inl e, s1, t1)
      | (inr true, s1, t1) =>
          (inr true, s1, t1 ++ [Log INFO (Already_exists_skipping name)])
      | (inr false, s1, t1) =>
          let '(r, s2, t2) := creation_block boto3 d name s1 in
          (r, s2, t1 ++ t2)
      end
  end.
Proof.
  unfold create_table, creation_block. unfold bind at 1, lift.
  destruct (getitem d "name") as [e | name]; [reflexivity |].
  unfold bind at 1.
  destruct (table_exists boto3 name s) as [[[e | [|]] s1] t1];
    try reflexivity.
  destruct (try_except _ _ s1) as [[r s2] t2]. reflexivity.
Qed.

(** The [try] statement of [create_table], by the answers of the store. *)
Lemma creation_block_cases (d name : json) (s : S) :
  creation_block boto3 d name s =
  match prepare_create_params d name with
  | inl e => (inr (in_use e), s, [handled name e])
  | inr p =>
      match client_create_table boto3 p s with
      | (inl e, s1) =>
          (inr (in_use e), s1, creation_events name p ++ [handled name e])
      | (inr _, s1) =>
          match waiter_wait boto3 name s1 with
          | (inl e, s2) =>
              (inr (in_use e), s2,
               creation_events name p ++
               [Call (CallWait name); handled name e])
          | (inr _, s2) =>
              (inr true, s2,
               creation_events name p ++
               [Call (CallWait name); Log INFO (Successfully_created name)])
          end
      end
  end.
Proof.
  assert (Hhandler : forall (e : exn) (s0 : S),
    match e with
    | ClientError error_code =>
        if String.eqb error_code "ResourceInUseException" then
          bind (logger WARNING (Being_created_by_another_process name))
               (fun _ => ret true)
        else
          bind (logger ERROR (Failed_to_create name e)) (fun _ => ret false)
    | _ =>
        bind (logger ERROR (Unexpected_error_creating name e))
             (fun _ => ret false)
    end s0 = (inr (in_use e), s0, [handled name e])).
  { intros e s0. unfold handled, in_use, refusal.
    destruct e; try reflexivity.
    destruct (String.eqb code "ResourceInUseException"); reflexivity. }
  unfold creation_block, try_except.
  unfold bind at 1, lift.
  destruct (prepare_create_params d name) as [e | p].
  { rewrite Hhandler. reflexivity. }
  unfold bind at 1, logger. unfold bind at 1, call.
  destruct (client_create_table boto3 p s) as [[e | u] s1].
  { rewrite Hhandler. reflexivity. }
  unfold bind at 1.
  destruct (waiter_wait boto3 name s1) as [[e | u'] s2].
  { rewrite Hhandler. reflexivity. }
  reflexivity.
Qed.

(** The [try] statement raises nothing. *)
Lemma creation_block_returns (d name : json) (s : S) :
  exists b s1 t, creation_block boto3 d name s = (inr b, s1, t).
Proof.
  rewrite creation_block_cases.
  destruct (prepare_create_params d name) as [e | p]; [eauto |].
  destruct (client_create_table boto3 p s) as [[e | u] s1]; [eauto |].
  destruct (waiter_wait boto3 name s1) as [[e | u'] s2]; eauto.
Qed.

(** X10.  [create_table] raises only before the creation: when the
    descriptor has no usable [name], or when the existence check raises an
    exception that is not a [ClientError]; whatever happens later in it is
    answered by [True] or [False]. *)
Theorem create_table_raises_only_before_creation (d : json) (s : S) (e : exn) :
  fst (fst (create_table boto3 d s)) = inl e <->
  getitem d "name" = inl e \/
  exists name,
    getitem d "name" = inr name /\
    fst (Table_load boto3 name s) = inl e /\
    forall code, e <> ClientError code.
Proof.
  rewrite create_table_steps.
  destruct (getitem d "name") as [e0 | name].
  - simpl. split.
    + intros H. left. congruence.
    + intros [H | (name & H & _)]; [congruence | discriminate].
  - rewrite table_exists_cases.
    destruct (Table_load boto3 name s) as [[e0 | u] s1] eqn:EL; simpl.
    + destruct (creation_block_returns d name s1) as (b & s2 & t & Hblock).
      destruct e0 as [m | k | | | | | m | code | r | k].
      8: { destruct (String.eqb code "ResourceNotFoundException");
             rewrite Hblock; simpl;
             (split; [discriminate |]);
             intros [H | (name' & Hn & H & Hne)]; try discriminate;
             injection Hn as <-; rewrite EL in H; simpl in H;
             injection H as <-; now contradiction (Hne code). }
      all: simpl; split;
        [ intros H; right; exists name;
          split; [reflexivity |]; rewrite EL; simpl; split; [congruence |];
          intros code; injection H as <-; discriminate
        | intros [H | (name' & Hn & H & _)]; [discriminate |];
          injection Hn as <-; rewrite EL in H; simpl in H; congruence ].
    + split; [discriminate |].
      intros [H | (name' & Hn & H & _)]; [discriminate |].
      injection Hn as <-. rewrite EL in H. discriminate.
Qed.

(** X11.  A descriptor that lacks a field of the table (the key schema, the
    attributes, the billing mode, or a field of one of their items) fails
    before any creation: [create_table] logs the error and returns [False],
    and the only call on the store is the existence check. *)
Theorem malformed_descriptor_fails_before_creation
    (d name : json) (e : exn) (s s1 : S) (t1 : list event) :
  getitem d "name" = inr name ->
  table_exists boto3 name s = (inr false, s1, t1) ->
  prepare_create_params d name = inl e ->
  create_table boto3 d s
    = (inr false, s1, t1 ++ [Log ERROR (Unexpected_error_creating name e)]) /\
  calls_of (snd (create_table boto3 d s)) = [CallLoad name].
Proof.
  intros Hname Hex Hpar.
  assert (E : create_table boto3 d s
    = (inr false, s1, t1 ++ [Log ERROR (Unexpected_error_creating name e)])).
  { rewrite create_table_steps, Hname, Hex, creation_block_cases, Hpar.
    pose proof (prepare_create_params_raises _ _ _ Hpar) as Hne.
    unfold handled, in_use, refusal.
    destruct e; try reflexivity. now contradiction (Hne code). }
  split; [exact E |]. rewrite E. simpl.
  apply table_exists_calls in Hex. destruct Hex as [Hcalls _].
  rewrite calls_of_app, Hcalls. reflexivity.
Qed.

(** The items [convert] returns carry the values of the items it read. *)
Lemma convert_mirrors (from1 to1 from2 to2 : string) (items outs : list json) :
  to1 <> to2 ->
  convert from1 to1 from2 to2 items = inr outs ->
  Forall2 (fun item out =>
             getitem item from1 = getitem out to1 /\
             getitem item from2 = getitem out to2)
          items outs.
Proof.
  intros Hto. revert outs.
  induction items as [| item rest IH]; intros outs; simpl.
  - intros H. injection H as <-. constructor.
  - destruct (getitem item from1) as [e1 | a] eqn:E1; [discriminate |].
    destruct (getitem item from2) as [e2 | b] eqn:E2; [discriminate |].
    destruct (convert from1 to1 from2 to2 rest) as [e3 | tl]; [discriminate |].
    intros H. injection H as <-. constructor; [| now apply IH].
    simpl. rewrite String.eqb_refl.
    destruct (String.eqb_spec to2 to1) as [E | _];
      [now contradiction Hto |].
    rewrite String.eqb_refl. now split.
Qed.

(** X12.  The parameters sent to the store mirror the descriptor: the table
    name is the descriptor's, the key schema and the attribute definitions
    have one element per item of the descriptor, in order and with the same
    values under the store's field names, the billing mode is passed as it
    is, and the secondary indexes are passed exactly when present. *)
Theorem create_params_mirror_the_descriptor
    (d name : json) (p : create_params) :
  prepare_create_params d name = inr p ->
  TableName p = name /\
  (exists ks keys,
      getitem d "key_schema" = inr ks /\ iter ks = inr keys /\
      Forall2 (fun key out =>
                 getitem key "attribute_name" = getitem out "AttributeName" /\
                 getitem key "key_type" = getitem out "KeyType")
              keys (KeySchema p)) /\
  (exists ats attrs,
      getitem d "attributes" = inr ats /\ iter ats = inr attrs /\
      Forall2 (fun attr out =>
                 getitem attr "name" = getitem out "AttributeName" /\
                 getitem attr "type" = getitem out "AttributeType")
              attrs (AttributeDefinitions p)) /\
  getitem d "billing_mode" = inr (BillingMode p) /\
  GlobalSecondaryIndexes p = contains d "global_secondary_indexes" /\
  LocalSecondaryIndexes p = contains d "local_secondary_indexes".
Proof.
  unfold prepare_create_params, bind_exn.
  destruct (getitem d "key_schema") as [e1 | ks] eqn:E1; [discriminate |].
  destruct (iter ks) as [e2 | keys] eqn:E2; [discriminate |].
  destruct (convert _ _ _ _ keys) as [e3 | key_schema] eqn:E3;
    [discriminate |].
  destruct (getitem d "attributes") as [e4 | ats] eqn:E4; [discriminate |].
  destruct (iter ats) as [e5 | attrs] eqn:E5; [discriminate |].
  destruct (convert _ _ _ _ attrs) as [e6 | defs] eqn:E6; [discriminate |].
  destruct (getitem d "billing_mode") as [e7 | bm] eqn:E7; [discriminate |].
  intros H. injection H as <-. simpl.
  split; [reflexivity |]. split; [| split; [| repeat split]].
  - exists ks, keys. split; [reflexivity |]. split; [exact E2 |].
    apply (convert_mirrors "attribute_name" "AttributeName" "key_type"
             "KeyType" keys key_schema); [discriminate | exact E3].
  - exists ats, attrs. split; [reflexivity |]. split; [exact E5 |].
    apply (convert_mirrors "name" "AttributeName" "type" "AttributeType"
             attrs defs); [discriminate | exact E6].
Qed.

(** *** The run *)

(** Loading the configuration leaves the store alone. *)
Lemma load_table_config_pure (config_file : string) (s s1 : S) r t :
  load_table_config boto3 config_file s = (r, s1, t) ->
  s1 = s /\ calls_of t = [].
Proof.
  unfold load_table_config.
  destruct (read_json boto3 config_file) as [e | config].
  - destruct e; run; intros H; injection H as <- <- <-; split; reflexivity.
  - run. destruct (get_default config "tables" (JArr [])) as [e | tables];
      simpl; [intros H; injection H as <- <- <-; split; reflexivity |].
    destruct (len tables) as [e | n]; simpl;
      intros H; injection H as <- <- <-; split; reflexivity.
Qed.

(** X13.  When the configuration cannot be loaded (the file is missing or
    is not JSON, the document is not an object, [tables] has no length),
    [run_migrations] returns [False] after logging the failure, the store is
    not called and keeps its state, and the exit status is 1. *)
Theorem unloadable_configuration_fails_without_store_call
    (config_file : string) (s : S) (e : exn) :
  fst (fst (load_table_config boto3 config_file s)) = inl e ->
  exists t,
    run_migrations boto3 config_file s
      = (inr false, s, t ++ [Log ERROR (Migration_failed e)]) /\
    calls_of t = [] /\
    (forall s0,
        connect boto3 s0 = (inr tt, s) ->
        fst (main boto3 false config_file s0) = (inr 1, s)).
Proof.
  intros Hload.
  destruct (load_table_config boto3 config_file s) as [[r s1] t] eqn:EL.
  simpl in Hload. subst r.
  destruct (load_table_config_pure _ _ _ _ _ EL) as [-> Hcalls].
  assert (Hrun : run_migrations boto3 config_file s
                 = (inr false, s, t ++ [Log ERROR (Migration_failed e)])).
  { unfold run_migrations, try_except. unfold bind at 1. rewrite EL.
    reflexivity. }
  exists t. split; [exact Hrun |]. split; [exact Hcalls |].
  intros s0 Hconnect. rewrite (main_exit_status _ _ _ _ Hconnect), Hrun.
  reflexivity.
Qed.

(** X14.  A configuration without tables (no [tables] key, or an empty
    list) is a success: [run_migrations] logs a warning and returns [True]
    without any call on the store. *)
Theorem empty_configuration_succeeds
    (config_file : string) (pairs : list (string * json)) (s : S) :
  read_json boto3 config_file = inr (JObj pairs) ->
  assoc "tables" pairs = None \/ assoc "tables" pairs = Some (JArr []) ->
  run_migrations boto3 config_file s
    = (inr true, s,
       [Log INFO (Loaded_table_configurations 0 config_file);
        Log WARNING No_table_configurations]).
Proof.
  intros Hread Htables.
  apply (run_migrations_loaded boto3 config_file (JObj pairs) (JArr []) [] s
           Hread); [| reflexivity].
  simpl. destruct Htables as [-> | ->]; reflexivity.
Qed.


(** The count of the loop is the number of successes. *)
Lemma create_each_successes (ds : list json) (c k : nat) (s s1 : S) t :
  create_each boto3 ds c s = (inr k, s1, t) ->
  k = (c + successes (outcomes boto3 ds s))%nat.
Proof.
  revert c k s s1 t. induction ds as [| d ds IH]; intros c k s s1 t; simpl.
  - unfold ret. intros H. injection H as <- _ _. lia.
  - unfold bind.
    destruct (create_table boto3 d s) as [[[e | created] s2] t2];
      [discriminate |].
    destruct (create_each boto3 ds _ s2) as [[[e | k'] s3] t3] eqn:E;
      [discriminate |].
    intros H. injection H as <- _ _. apply IH in E.
    destruct created; simpl; lia.
Qed.

Lemma successes_le (os : list (exn + bool)) :
  (successes os <= List.length os)%nat.
Proof.
  induction os as [| [e | [|]] os IH]; simpl; lia.
Qed.

Lemma outcomes_length (ds : list json) (s : S) :
  (List.length (outcomes boto3 ds s) <= List.length ds)%nat.
Proof.
  revert s. induction ds as [| d ds IH]; intros s; simpl; [lia |].
  destruct (create_table boto3 d s) as [[[e | created] s2] t2]; simpl;
    [lia |]. specialize (IH s2). lia.
Qed.

(** X16.  When the loop ends without an exception, the number of successes
    that [run_migrations] logs is the number of descriptors on which
    [create_table] returned [True], at most the number of descriptors, and
    the result is [True] exactly when the two numbers are equal. *)
Theorem logged_count_is_the_number_of_successes
    (config_file : string) (config tables : json) (d : json)
    (ds : list json) (k : nat) (s s1 : S) (t : list event) :
  read_json boto3 config_file = inr config ->
  get_default config "tables" (JArr []) = inr tables ->
  iter tables = inr (d :: ds) ->
  create_each boto3 (d :: ds) 0%nat s = (inr k, s1, t) ->
  let n := List.length (d :: ds) in
  k = successes (outcomes boto3 (d :: ds) s) /\
  (k <= n)%nat /\
  run_migrations boto3 config_file s
    = (inr (Nat.eqb k n), s1,
       Log INFO (Loaded_table_configurations n config_file)
       :: t ++ [Log INFO (Migration_completed k n)]).
Proof.
  intros Hread Hget Hiter Hloop n.
  pose proof (create_each_successes _ _ _ _ _ _ Hloop) as Hk.
  rewrite Nat.add_0_l in Hk. split; [exact Hk |]. split.
  - pose proof (successes_le (outcomes boto3 (d :: ds) s)).
    pose proof (outcomes_length (d :: ds) s). unfold n. lia.
  - rewrite (run_migrations_loaded boto3 _ _ _ _ s Hread Hget Hiter).
    rewrite Hloop. reflexivity.
Qed.

(** *** The calls of a run *)

Lemma table_by_table_app (a b : list store_call) :
  table_by_table a -> table_by_table b -> table_by_table (a ++ b).
Proof.
  intros Ha Hb. induction Ha; simpl.
  - exact Hb.
  - now apply tbt_checked.
  - now apply tbt_created.
  - now apply tbt_awaited.
Qed.

(** The calls of [create_table] for one table. *)
Lemma create_table_calls (d : json) (s : S) :
  table_by_table (calls_of (snd (create_table boto3 d s))).
Proof.
  rewrite create_table_steps.
  destruct (getitem d "name") as [e | name]; [constructor |].
  destruct (table_exists boto3 name s) as [[r s1] t1] eqn:Eex.
  destruct (table_exists_calls _ _ _ _ _ _ Eex) as [Hcalls _].
  destruct r as [e | [|]]; simpl.
  - rewrite Hcalls. repeat constructor.
  - rewrite calls_of_app, Hcalls. repeat constructor.
  - rewrite creation_block_cases.
    destruct (prepare_create_params d name) as [e | p] eqn:Ep; simpl.
    + rewrite calls_of_app, Hcalls. unfold handled.
      destruct (in_use e); repeat constructor.
    + apply prepare_create_params_name in Ep.
      destruct (client_create_table boto3 p s1) as [[e | u] s2]; simpl.
      * rewrite calls_of_app, Hcalls. unfold handled.
        destruct (in_use e); simpl; apply tbt_created; auto; constructor.
      * destruct (waiter_wait boto3 name s2) as [[e | u'] s3]; simpl;
          rewrite calls_of_app, Hcalls; unfold handled;
          try destruct (in_use e); simpl;
          apply tbt_awaited; auto; constructor.
Qed.

Lemma create_each_calls (ds : list json) (c : nat) (s : S) :
  table_by_table (calls_of (snd (create_each boto3 ds c s))).
Proof.
  revert c s. induction ds as [| d ds IH]; intros c s; simpl.
  - constructor.
  - unfold bind. pose proof (create_table_calls d s) as Hd.
    destruct (create_table boto3 d s) as [[[e | created] s1] t1];
      simpl in Hd; [exact Hd |].
    specialize (IH (if created then (c + 1)%nat else c) s1).
    destruct (create_each boto3 ds _ s1) as [[r s2] t2]. simpl in *.
    rewrite calls_of_app. now apply table_by_table_app.
Qed.

(** X17.  In every run of [run_migrations], whatever the configuration and
    the answers of the store, the calls on the store come table by table: a
    table is created only right after its own existence check, and waited
    for only right after its own creation; no table is listed. *)
Theorem run_calls_come_table_by_table (config_file : string) (s : S) :
  table_by_table (calls_of (snd (run_migrations boto3 config_file s))).
Proof.
  unfold run_migrations, try_except. unfold bind at 1.
  destruct (load_table_config boto3 config_file s) as [[r s1] t1] eqn:EL.
  destruct (load_table_config_pure _ _ _ _ _ EL) as [-> Hload].
  destruct r as [e | table_configs].
  - run. rewrite calls_of_app, Hload. constructor.
  - destruct (falsy table_configs).
    + run. rewrite calls_of_app, Hload. constructor.
    + unfold bind at 1, lift.
      destruct (iter table_configs) as [e | items].
      * run. rewrite ?calls_of_app, Hload. constructor.
      * unfold bind at 1.
        pose proof (create_each_calls items 0%nat s) as Hloop.
        destruct (create_each boto3 items 0%nat s) as [[[e | k] s2] t2];
          simpl in Hloop.
        -- run. rewrite ?calls_of_app, Hload. simpl.
           rewrite ?app_nil_r. exact Hloop.
        -- run. destruct (len table_configs) as [e | total]; simpl;
             rewrite ?calls_of_app, Hload; simpl;
             rewrite ?app_nil_r; exact Hloop.
Qed.

(** *** Listing *)

Lemma bind_returned {A B : Type} (m : M A) (f : A -> M B)
    (a : A) (s s1 : S) (t1 : list event) :
  m s = (inr a, s1, t1) ->
  bind m f s = (let '(r, s2, t2) := f a s1 in (r, s2, t1 ++ t2)).
Proof. intros H. unfold bind. rewrite H. reflexivity. Qed.

Lemma bind_raised {A B : Type} (m : M A) (f : A -> M B)
    (e : exn) (s s1 : S) (t1 : list event) :
  m s = (inl e, s1, t1) -> bind m f s = (inl e, s1, t1).
Proof. intros H. unfold bind. rewrite H. reflexivity. Qed.

Lemma list_tables_cases (s : S) :
  list_tables boto3 s =
  match client_list_tables boto3 s with
  | (inr response, s1) =>
      (inr (match TableNames response with
            | Some names => names
            | None => []
            end), s1, [Call CallList])
  | (inl e, s1) =>
      (inr [], s1, [Call CallList; Log ERROR (Failed_to_list e)])
  end.
Proof.
  unfold list_tables. run.
  destruct (client_list_tables boto3 s) as [[e | response] s1]; reflexivity.
Qed.

Lemma table_items_logged (names : list string) (s : S) :
  fold_right (fun table k => bind (logger INFO (Table_item table)) (fun _ => k))
             (ret tt) names s
  = (inr tt, s, map (fun name => Log INFO (Table_item name)) names).
Proof.
  induction names as [| name names IH]; simpl; [reflexivity |].
  rewrite (bind_returned _ _ tt s s [Log INFO (Table_item name)] eq_refl).
  rewrite IH. reflexivity.
Qed.

(** The logging of the tables listed. *)
Lemma listing_logged (names : list string) (s : S) :
  match names with
  | [] => logger INFO No_tables_found
  | _ :: _ =>
      bind (logger INFO Existing_tables)
        (fun _ =>
           fold_right
             (fun table k => bind (logger INFO (Table_item table)) (fun _ => k))
             (ret tt) names)
  end s = (inr tt, s, listing names).
Proof.
  destruct names as [| name names]; [reflexivity |].
  rewrite (bind_returned _ _ tt s s [Log INFO Existing_tables] eq_refl).
  rewrite table_items_logged. reflexivity.
Qed.

(** [main --list], once the clients are built, by the result of
    [list_tables]. *)
Lemma main_list_steps (config : string) (s0 s : S) :
  connect boto3 s0 = (inr tt, s) ->
  main boto3 true config s0 =
  match list_tables boto3 s with
  | (inr names, s1, t) => (inr 0, s1, t ++ listing names)
  | (inl e, s1, t) => (inr 1, s1, t ++ [Log ERROR (Migration_script_failed e)])
  end.
Proof.
  intros Hconnect.
  assert (Hnew : new_migrator boto3 s0 = (inr tt, s, []))
    by (unfold new_migrator; now rewrite Hconnect).
  unfold main, try_except.
  rewrite (bind_returned _ _ tt s0 s [] Hnew).
  destruct (list_tables boto3 s) as [[[e | names] s1] t] eqn:Elist.
  - rewrite (bind_raised _ _ e s s1 t Elist). reflexivity.
  - rewrite (bind_returned _ _ names s s1 t Elist).
    rewrite (bind_returned _ _ tt s1 s1 (listing names)
               (listing_logged names s1)).
    unfold ret. simpl. now rewrite app_nil_r.
Qed.

(** X18.  [main --list], once the clients are built, calls the store once,
    to list the tables, and ends with status 0: it logs the tables in the
    order of the answer, or that there are none; when the listing raises it
    logs the error and that there are none. *)
Theorem list_mode_only_lists (config : string) (s0 s : S) :
  connect boto3 s0 = (inr tt, s) ->
  main boto3 true config s0 =
  match client_list_tables boto3 s with
  | (inr response, s1) =>
      (inr 0, s1,
       Call CallList
       :: listing (match TableNames response with
                   | Some names => names
                   | None => []
                   end))
  | (inl e, s1) =>
      (inr 0, s1,
       [Call CallList; Log ERROR (Failed_to_list e);
        Log INFO No_tables_found])
  end /\
  calls_of (snd (main boto3 true config s0)) = [CallList].
Proof.
  intros Hconnect.
  rewrite (main_list_steps config s0 s Hconnect), list_tables_cases.
  destruct (client_list_tables boto3 s) as [[e | response] s1].
  - split; reflexivity.
  - split; [reflexivity |]. simpl. f_equal. unfold listing.
    destruct (TableNames response) as [[| name names] |]; try reflexivity.
    simpl. induction names as [| n names IH]; simpl; auto.
Qed.



End Extras.

End MigrationsExtras.

(** ** The properties on the in-memory store *)

Module Examples.
Import Json Store Migrations InMemory MigrationsFacts.

Lemma has_table_app (n : string) (tables more : list string) :
  has_table n tables = true -> has_table n (tables ++ more) = true.
Proof.
  unfold has_table. intros H. rewrite existsb_app, H. reflexivity.
Qed.

(** Loading succeeds in the in-memory store exactly on the tables it has. *)
Lemma plain_present (files : string -> exn + json) (tables : list string)
    (n : json) :
  present (in_memory files no_faults) tables n <->
  exists k, n = JStr k /\ has_table k tables = true.
Proof.
  unfold present. simpl. unfold load. split.
  - destruct n; simpl; try discriminate.
    destruct (has_table s tables) eqn:E; [| discriminate]. eauto.
  - intros (k & -> & Hk). simpl. now rewrite Hk.
Qed.

(** The in-memory store without faults forgets no table. *)
Lemma in_memory_durable (files : string -> exn + json) :
  durable (in_memory files no_faults).
Proof.
  constructor.
  - intros n m s Hn. simpl. unfold load.
    destruct m; simpl; try exact Hn. destruct (has_table s0 s); exact Hn.
  - intros n p s Hn. apply plain_present in Hn.
    destruct Hn as (k & -> & Hk). apply plain_present. exists k.
    split; [reflexivity |]. simpl. unfold create.
    destruct (TableName p); simpl; try exact Hk.
    destruct (has_table s0 s); simpl; [exact Hk | now apply has_table_app].
  - intros n m s Hn. simpl. unfold wait.
    destruct m; simpl; try exact Hn. destruct (has_table s0 s); exact Hn.
  - intros p s H. apply plain_present. simpl in *. unfold create in *.
    destruct (TableName p); simpl in *;
      try (destruct H as [H | H]; discriminate).
    exists s0. split; [reflexivity |].
    destruct (has_table s0 s) eqn:E; simpl in *; [exact E |].
    unfold has_table. rewrite existsb_app. simpl.
    rewrite String.eqb_refl. now rewrite orb_true_r.
Qed.

(** *** One refused creation (C1) *)

(** The store refuses [orders]: [users] and [events] are created all the
    same, and the exit status is 1. *)
Lemma one_refused_creation_witness :
  outcomes denying_store [table "users"; table "orders"; table "events"] []
    = [inr true; inr false; inr true] /\
  fst (main denying_store false config_path []) = (inr 1, ["users"; "events"]).
Proof.
  edestruct (one_refused_creation_does_not_stop_the_run denying_store
               config_path three_tables
               (JArr [table "users"; table "orders"; table "events"])
               [table "users"] [table "events"] (table "orders")
               (JStr "orders") (table_params "orders")
               (ClientError "AccessDeniedException")
               [] [] ["users"] ["users"] ["users"] ["users"; "events"])
    as (Houtcomes & _ & Hmain).
  - reflexivity.
  - reflexivity.
  - reflexivity.
  - reflexivity.
  - reflexivity.
  - reflexivity.
  - reflexivity.
  - reflexivity.
  - reflexivity.
  - discriminate.
  - reflexivity.
  - split; [exact Houtcomes |]. rewrite Hmain. reflexivity.
Defined.

(** *** A second run (C2) *)

Lemma second_run_witness :
  exists s2 t2,
    run_migrations plain_store config_path ["users"; "orders"; "events"]
      = (inr true, s2, t2) /\
    forallb is_load (calls_of t2) = true.
Proof.
  destruct (second_run_creates_nothing plain_store
              (in_memory_durable (one_file three_tables))
              config_path three_tables
              (JArr [table "users"; table "orders"; table "events"])
              [table "users"; table "orders"; table "events"]
              [] ["users"; "orders"; "events"]
              (snd (run_migrations plain_store config_path [])))
    as (s2 & t2 & Hrun & _ & Hloads & _).
  - reflexivity.
  - reflexivity.
  - reflexivity.
  - reflexivity.
  - exists s2, t2. split; assumption.
Defined.

(** *** A lost race (C3) *)

(** Against C3 as stated: [orders] is created by another process between
    the check and the creation.  [create_table] returns [True], but its
    calls on the store stop at the creation, while a creation that succeeds
    goes on to the readiness wait. *)
Lemma race_lost_skips_the_wait :
  client_create_table racing_store (table_params "orders") []
    = (inl (ClientError "ResourceInUseException"), ["orders"]) /\
  fst (create_table racing_store (table "orders") [])
    = (inr true, ["orders"]) /\
  calls_of (snd (create_table racing_store (table "orders") []))
    = [CallLoad (JStr "orders"); CallCreate (table_params "orders")] /\
  calls_of (snd (create_table plain_store (table "orders") []))
    = [CallLoad (JStr "orders"); CallCreate (table_params "orders");
       CallWait (JStr "orders")].
Proof. repeat split. Qed.

Lemma race_lost_witness :
  fst (create_table racing_store (table "orders") [])
    = (inr true, ["orders"]).
Proof.
  edestruct (race_lost_is_success_without_wait racing_store
               (table "orders") (JStr "orders") (table_params "orders")
               [] [] ["orders"])
    as (Hcreate & _).
  - reflexivity.
  - reflexivity.
  - reflexivity.
  - reflexivity.
  - rewrite Hcreate. reflexivity.
Defined.

(** *** An undeclared key attribute (C4) *)



(** *** The exit status (C5) *)

Lemma exit_status_witness :
  exists status s2 t,
    main plain_store false config_path [] = (inr status, s2, t) /\
    (status = 0 <->
     Forall (eq (inr true))
       (outcomes plain_store
          [table "users"; table "orders"; table "events"] [])).
Proof.
  destruct (exit_status_zero_iff_all_succeeded plain_store
              config_path three_tables
              (JArr [table "users"; table "orders"; table "events"])
              [table "users"; table "orders"; table "events"] [] [])
    as (status & s2 & t & Hmain & Hiff & _).
  - reflexivity.
  - reflexivity.
  - reflexivity.
  - reflexivity.
  - exists status, s2, t. split; assumption.
Defined.

(** *** A denied existence check (C6) *)

(** Against C6 as stated: the store has the table [users] but denies the
    caller the right to describe it.  The check raises nothing: it logs the
    error and returns [False]. *)
Lemma unauthorized_check_returns_false :
  Table_load unauthorized_store (JStr "users") ["users"]
    = (inl (ClientError "AccessDeniedException"), ["users"]) /\
  table_exists unauthorized_store (JStr "users") ["users"]
    = (inr false, ["users"],
       [Call (CallLoad (JStr "users"));
        Log ERROR (Error_checking_exists (JStr "users")
                     (ClientError "AccessDeniedException"))]).
Proof. split; reflexivity. Qed.

Lemma table_exists_answers_witness :
  fst (fst (table_exists unauthorized_store (JStr "users") ["users"]))
    = inr false.
Proof.
  apply (proj1 (proj2 (table_exists_answers unauthorized_store
                         (JStr "users") ["users"]))
           "AccessDeniedException").
  reflexivity.
Defined.

(** *** A readiness wait that gives up (C7) *)

Lemma wait_timeout_witness :
  fst (create_table stuck_store (table "orders") ["users"])
    = (inr false, ["users"; "orders"]) /\
  fst (create_each stuck_store [table "orders"; table "events"] 1%nat ["users"])
    = (inr 2%nat, ["users"; "orders"; "events"]).
Proof.
  edestruct (wait_timeout_fails_the_table_only stuck_store
               (table "orders") (JStr "orders") (table_params "orders")
               "Max attempts exceeded"
               ["users"] ["users"] ["users"; "orders"] ["users"; "orders"]
               [Call (CallLoad (JStr "orders"))]
               [table "events"] 1%nat)
    as (Hcreate & Heach).
  - reflexivity.
  - reflexivity.
  - reflexivity.
  - reflexivity.
  - reflexivity.
  - rewrite Hcreate, Heach. split; reflexivity.
Defined.

(** *** Listing a store that cannot be reached (C10) *)

Lemma list_tables_witness :
  list_tables unreachable_store ["users"]
    = (inr [], ["users"],
       [Call CallList;
        Log ERROR (Failed_to_list (BotoCoreError "EndpointConnectionError"))]).
Proof.
  apply (proj1 (proj2 (list_tables_never_raises unreachable_store ["users"]))).
  reflexivity.
Defined.

End Examples.

(** ** The further properties on the in-memory stores *)

Module ExtraExamples.
Import Json Store Datetime Main Web Migrations InMemory InMemoryTable.
Import MigrationsFacts MigrationsExtras WebFacts.

(** The in-memory table gives back what was put. *)
Lemma in_memory_table_reads_its_writes :
  reads_its_writes (in_memory_table sound).
Proof.
  intros username v s s1 Hput. simpl in *. unfold put, get in *. simpl in *.
  injection Hput as <-. simpl. rewrite String.eqb_refl. eauto.
Qed.

Lemma birthday_round_trip_witness :
  exists n s2,
    fst (get_hello (in_memory_table sound) "john" (mkdate 2024 3 10)
           [("john", birthday_item "john" "1990-05-15")])
      = (inr (message (greeting "john" n)), s2) /\
    0 <= n <= 365.
Proof.
  destruct (birthday_round_trip (in_memory_table sound) "john"
              (mkdate 1990 5 15) (mkdate 2024 3 10) []
              [("john", birthday_item "john" "1990-05-15")]
              [WebLog INFO (Storing_birthday "john" "1990-05-15");
               PutItem (birthday_item "john" "1990-05-15");
               WebLog INFO (Successfully_stored "john")]
              in_memory_table_reads_its_writes)
    as (n & s2 & Hget & _ & Hrange & _).
  - reflexivity.
  - reflexivity.
  - reflexivity.
  - simpl. lia.
  - reflexivity.
  - exists n, s2. split; assumption.
Defined.

Lemma leap_day_user_witness :
  exists s2,
    fst (get_hello (in_memory_table sound) "ada" (mkdate 2023 3 10)
           [("ada", birthday_item "ada" "2000-02-29")])
      = (inl (Unhandled (ValueError "day is out of range for month")), s2).
Proof.
  apply (leap_day_user_gets_an_error (in_memory_table sound) "ada"
           (mkdate 2000 2 29) (mkdate 2023 3 10) []
           [("ada", birthday_item "ada" "2000-02-29")]
           [WebLog INFO (Storing_birthday "ada" "2000-02-29");
            PutItem (birthday_item "ada" "2000-02-29");
            WebLog INFO (Successfully_stored "ada")]
           in_memory_table_reads_its_writes).
  - reflexivity.
  - reflexivity.
  - reflexivity.
  - reflexivity.
  - left. reflexivity.
  - reflexivity.
Defined.

Lemma get_hello_failure_witness :
  fst (get_hello (in_memory_table get_throttled) "john" (mkdate 2024 3 10)
         [("john", birthday_item "john" "1990-05-15")])
    = (inr (message "user not found"),
       [("john", birthday_item "john" "1990-05-15")]).
Proof.
  apply (proj1 (get_hello_hides_store_failures (in_memory_table get_throttled)
                  "john" (mkdate 2024 3 10)
                  [("john", birthday_item "john" "1990-05-15")])
           (ClientError "ProvisionedThroughputExceededException")).
  reflexivity.
Defined.

Lemma create_table_raises_witness :
  fst (fst (create_table plain_store nameless [])) = inl (KeyError "name").
Proof.
  apply (proj2 (create_table_raises_only_before_creation plain_store
                  nameless [] (KeyError "name"))).
  left. reflexivity.
Defined.

Lemma malformed_descriptor_witness :
  calls_of (snd (create_table plain_store (table_without_billing "users") []))
    = [CallLoad (JStr "users")].
Proof.
  apply (malformed_descriptor_fails_before_creation plain_store
           (table_without_billing "users") (JStr "users")
           (KeyError "billing_mode") [] []
           [Call (CallLoad (JStr "users"))]).
  - reflexivity.
  - reflexivity.
  - reflexivity.
Defined.

Lemma create_params_witness :
  TableName (table_params "users") = JStr "users" /\
  getitem (table "users") "billing_mode"
    = inr (BillingMode (table_params "users")).
Proof.
  destruct (create_params_mirror_the_descriptor (table "users")
              (JStr "users") (table_params "users") eq_refl)
    as (Hname & _ & _ & Hbilling & _).
  split; assumption.
Defined.

Lemma unloadable_configuration_witness :
  exists t,
    run_migrations plain_store "missing.json" ["users"]
      = (inr false, ["users"],
         t ++ [Log ERROR (Migration_failed FileNotFoundError)]) /\
    calls_of t = [].
Proof.
  destruct (unloadable_configuration_fails_without_store_call plain_store
              "missing.json" ["users"] FileNotFoundError eq_refl)
    as (t & Hrun & Hcalls & _).
  exists t. split; assumption.
Defined.

Lemma empty_configuration_witness :
  fst (run_migrations no_tables_store config_path ["users"])
    = (inr true, ["users"]).
Proof.
  rewrite (empty_configuration_succeeds no_tables_store config_path
             [("version", JNum 1)] ["users"] eq_refl (or_introl eq_refl)).
  reflexivity.
Defined.


Lemma logged_count_witness :
  exists k,
    k = successes (outcomes denying_store
                     [table "users"; table "orders"; table "events"] []) /\
    (k <= 3)%nat.
Proof.
  destruct (logged_count_is_the_number_of_successes denying_store config_path
              three_tables
              (JArr [table "users"; table "orders"; table "events"])
              (table "users") [table "orders"; table "events"] 2%nat
              [] ["users"; "events"]
              (snd (create_each denying_store
                      [table "users"; table "orders"; table "events"]
                      0%nat []))
              eq_refl eq_refl eq_refl eq_refl)
    as (Hk & Hle & _).
  exists 2%nat. split; assumption.
Defined.

Lemma list_mode_witness :
  calls_of (snd (main plain_store true config_path ["users"; "orders"]))
    = [CallList].
Proof.
  apply (proj2 (list_mode_only_lists plain_store config_path
                  ["users"; "orders"] ["users"; "orders"] eq_refl)).
Defined.


End ExtraExamples.
